(** * Image-layer resolution and build-plan construction

A shallow embedding of [scripts/run_dev/build_image_layers.py]:
key ordering ([ImageKey.from_key_set]), layer resolution
([resolve_dockerfiles]), content fingerprints ([ImageBuildPlan.md5hash])
and the bake-plan compiler ([ImageBuildPlan.generate_bake_dict]).

Python strings are [string] (byte strings; comparing UTF-8 bytes
lexicographically agrees with comparing code points), Python lists are
[list], insertion-ordered dicts are association lists updated in place,
[None]-able arguments are [option]. *)

From Stdlib Require Import List String Ascii Bool Arith NArith ZArith Lia.
From Stdlib Require Import Permutation Sorted.
From Equations.Prop Require Import Equations Logic.
Import ListNotations.

Local Open Scope string_scope.
Local Open Scope list_scope.

(* ===================================================================== *)
(** ** Python built-ins used by the script *)
(* ===================================================================== *)

Module Py.

(** [sep.join(parts)] *)
Definition join (sep : string) (parts : list string) : string :=
  String.concat sep parts.

(** [x in l] for a list of strings. *)
Definition list_in (x : string) (l : list string) : bool :=
  existsb (String.eqb x) l.

(** [l.index(x)]: position of the first occurrence; Python raises
    [ValueError] when there is none, which is [None] here. *)
Fixpoint index (x : string) (l : list string) : option nat :=
  match l with
  | [] => None
  | y :: l' =>
      if String.eqb y x then Some 0
      else match index x l' with
           | Some n => Some (S n)
           | None => None
           end
  end.

(** [sub in s] for strings: substring test. *)
Fixpoint str_in (sub s : string) : bool :=
  String.prefix sub s ||
  match s with
  | EmptyString => false
  | String _ s' => str_in sub s'
  end.

(** [s[n:]] for strings. *)
Fixpoint drop (n : nat) (s : string) : string :=
  match n, s with
  | O, _ => s
  | S n', String _ s' => drop n' s'
  | S _, EmptyString => EmptyString
  end.

(** [s.count(sub)] for a non-empty [sub]: the number of non-overlapping
    occurrences, scanning from the left.  Every step consumes at least one
    character, so [String.length s] steps are enough. *)
Fixpoint count_from (fuel : nat) (sub s : string) : nat :=
  match fuel with
  | O => 0
  | S fuel' =>
      if String.prefix sub s
      then S (count_from fuel' sub (drop (String.length sub) s))
      else match s with
           | EmptyString => 0
           | String _ s' => count_from fuel' sub s'
           end
  end.

Definition count (sub s : string) : nat := count_from (String.length s) sub s.

(** *** [sorted]

[sorted(xs, key=k)] compares keys with [<] only and is stable.  The
model is the stable insertion sort: elements are taken left to right
and each one is placed in front of the first already placed element
that it is strictly smaller than.  [sorted] is the sort under a
comparison that cannot raise (string keys); [sorted_raising] is the
same sort under a user comparison that may raise, [None] being the
exception. *)
Section Sorted.
Context {A : Type}.

Section Pure.
Variable lt : A -> A -> bool.

Fixpoint insert (x : A) (l : list A) : list A :=
  match l with
  | [] => [x]
  | y :: l' => if lt x y then x :: l else y :: insert x l'
  end.

Fixpoint sorted_from (acc : list A) (l : list A) : list A :=
  match l with
  | [] => acc
  | x :: l' => sorted_from (insert x acc) l'
  end.

Definition sorted (l : list A) : list A := sorted_from [] l.
End Pure.

Section Raising.
Variable lt : A -> A -> option bool.

Fixpoint insert_raising (x : A) (l : list A) : option (list A) :=
  match l with
  | [] => Some [x]
  | y :: l' =>
      match lt x y with
      | None => None
      | Some true => Some (x :: l)
      | Some false =>
          match insert_raising x l' with
          | Some r => Some (y :: r)
          | None => None
          end
      end
  end.

Fixpoint sorted_raising_from (acc : list A) (l : list A)
  : option (list A) :=
  match l with
  | [] => Some acc
  | x :: l' =>
      match insert_raising x acc with
      | Some acc' => sorted_raising_from acc' l'
      | None => None
      end
  end.

Definition sorted_raising (l : list A) : option (list A) :=
  sorted_raising_from [] l.
End Raising.
End Sorted.

(** [s.partition(' ')[0]]: the part in front of the first space. *)
Fixpoint before_space (s : string) : string :=
  match s with
  | EmptyString => EmptyString
  | String c s' => if Ascii.eqb c " " then EmptyString
                   else String c (before_space s')
  end.

(** *** Insertion-ordered dictionaries *)
Section Dict.
Context {V : Type}.

Definition dict := list (string * V).

Fixpoint get (k : string) (d : dict) : option V :=
  match d with
  | [] => None
  | (k', v) :: d' => if String.eqb k' k then Some v else get k d'
  end.

(** [d[k] = v]: an existing key keeps its position. *)
Fixpoint set (k : string) (v : V) (d : dict) : dict :=
  match d with
  | [] => [(k, v)]
  | (k', v') :: d' =>
      if String.eqb k' k then (k, v) :: d' else (k', v') :: set k v d'
  end.

(** [d.update(e)] *)
Definition update (d e : dict) : dict :=
  fold_left (fun acc kv => set (fst kv) (snd kv) acc) e d.

Definition keys (d : dict) : list string := map fst d.
Definition values (d : dict) : list V := map snd d.
End Dict.
Arguments dict V : clear implicits.

End Py.

(* ===================================================================== *)
(** ** [hashlib.md5] *)
(* ===================================================================== *)

(** The MD5 digest of RFC 1321 on byte strings, with 32-bit words as [N]
    and their wrap-around written out.  The program takes the digest as a
    parameter; this is the function the parameter stands for, used where
    the program is run on concrete files. *)
Module MD5.


Definition add32 (x y : N) : N := ((x + y) mod 4294967296)%N.
Definition not32 (x : N) : N := N.lxor x 4294967295.
Definition rotl32 (x c : N) : N :=
  N.lor (N.shiftl x c mod 4294967296)%N (N.shiftr x (32 - c)).

Definition shifts : list N :=
  [7; 12; 17; 22; 7; 12; 17; 22; 7; 12; 17; 22; 7; 12; 17; 22;
   5; 9; 14; 20; 5; 9; 14; 20; 5; 9; 14; 20; 5; 9; 14; 20;
   4; 11; 16; 23; 4; 11; 16; 23; 4; 11; 16; 23; 4; 11; 16; 23;
   6; 10; 15; 21; 6; 10; 15; 21; 6; 10; 15; 21; 6; 10; 15; 21]%N.

Definition sines : list N :=
  [3614090360; 3905402710; 606105819; 3250441966; 4118548399; 1200080426;
   2821735955; 4249261313; 1770035416; 2336552879; 4294925233; 2304563134;
   1804603682; 4254626195; 2792965006; 1236535329; 4129170786; 3225465664;
   643717713; 3921069994; 3593408605; 38016083; 3634488961; 3889429448;
   568446438; 3275163606; 4107603335; 1163531501; 2850285829; 4243563512;
   1735328473; 2368359562; 4294588738; 2272392833; 1839030562; 4259657740;
   2763975236; 1272893353; 4139469664; 3200236656; 681279174; 3936430074;
   3572445317; 76029189; 3654602809; 3873151461; 530742520; 3299628645;
   4096336452; 1126891415; 2878612391; 4237533241; 1700485571; 2399980690;
   4293915773; 2240044497; 1873313359; 4264355552; 2734768916; 1309151649;
   4149444226; 3174756917; 718787259; 3951481745]%N.

Definition state : Type := (N * N * N * N)%type.

Definition operation (block : list N) (st : state) (i : nat) : state :=
  let '(a, b, c, d) := st in
  let '(f, g) :=
    if Nat.ltb i 16 then (N.lor (N.land b c) (N.land (not32 b) d), i)
    else if Nat.ltb i 32
         then (N.lor (N.land d b) (N.land (not32 d) c), (5 * i + 1) mod 16)
    else if Nat.ltb i 48
         then (N.lxor (N.lxor b c) d, (3 * i + 5) mod 16)
    else (N.lxor c (N.lor b (not32 d)), (7 * i) mod 16) in
  let f := add32 (add32 (add32 f a) (nth i sines 0%N)) (nth g block 0%N) in
  (d, add32 b (rotl32 f (nth i shifts 0%N)), b, c).

Definition process (st : state) (block : list N) : state :=
  let '(a0, b0, c0, d0) := st in
  let '(a, b, c, d) := fold_left (operation block) (seq 0 64) st in
  (add32 a0 a, add32 b0 b, add32 c0 c, add32 d0 d).

Fixpoint le_bytes (n : nat) (x : N) : list N :=
  match n with
  | O => []
  | S n' => (x mod 256)%N :: le_bytes n' (x / 256)%N
  end.

Fixpoint words (bytes : list N) : list N :=
  match bytes with
  | b0 :: b1 :: b2 :: b3 :: rest =>
      (b0 + 256 * b1 + 65536 * b2 + 16777216 * b3)%N :: words rest
  | _ => []
  end.

Fixpoint blocks (fuel : nat) (ws : list N) : list (list N) :=
  match fuel, ws with
  | S fuel', _ :: _ => firstn 16 ws :: blocks fuel' (skipn 16 ws)
  | _, _ => []
  end.

Definition pad (msg : list N) : list N :=
  let len := List.length msg in
  msg ++ [128%N] ++ repeat 0%N ((119 - len mod 64) mod 64)
      ++ le_bytes 8 (8 * N.of_nat len)%N.

Definition initial : state :=
  (1732584193, 4023233417, 2562383102, 271733878)%N.

Definition digest (msg : list N) : list N :=
  let ws := words (pad msg) in
  let '(a, b, c, d) := fold_left process (blocks (List.length ws) ws) initial in
  le_bytes 4 a ++ le_bytes 4 b ++ le_bytes 4 c ++ le_bytes 4 d.

Definition hex_digit (n : N) : ascii :=
  nth (N.to_nat n) (list_ascii_of_string "0123456789abcdef") "0"%char.

Fixpoint hex (bytes : list N) : string :=
  match bytes with
  | [] => EmptyString
  | b :: rest =>
      String (hex_digit (b / 16)%N) (String (hex_digit (b mod 16)%N) (hex rest))
  end.

Definition hexdigest (s : string) : string :=
  hex (digest (map N_of_ascii (list_ascii_of_string s))).

End MD5.

(* ===================================================================== *)
(** ** [class ImageKey] *)
(* ===================================================================== *)

Record ImageKey : Type := mkImageKey { image_keys_ : list string }.

(** [ImageKey.__str__] *)
Definition ImageKey_str (k : ImageKey) : string :=
  Py.join "." (image_keys_ k).

(** [compare_image_keys], the comparator closed over [key_order]. *)
Definition compare_image_keys (key_order : list string) (a b : string)
  : option Z :=
  if Py.list_in a key_order && Py.list_in b key_order then
    match Py.index a key_order, Py.index b key_order with
    | Some ia, Some ib => Some (if Nat.ltb ia ib then (-1)%Z else 1%Z)
    | _, _ => None
    end
  else if Py.list_in a key_order then Some (-1)%Z
  else if Py.list_in b key_order then Some 1%Z
  else Some (if String.ltb a b then -1 else 1)%Z.

(** [functools.cmp_to_key(mycmp)] wraps each element in an object whose
    [__lt__] is [mycmp(a, b) < 0]; [sorted] uses nothing else. *)
Definition cmp_to_key_lt (mycmp : string -> string -> option Z)
  (a b : string) : option bool :=
  match mycmp a b with
  | Some c => Some (c <? 0)%Z
  | None => None
  end.

(** [ImageKey.from_key_set]: [key_order or []], then the sort.  The key
    set arrives as the list of its elements in iteration order. *)
Definition from_key_set (image_key_set : list string)
  (key_order : option (list string)) : option ImageKey :=
  let key_order :=
    match key_order with
    | Some ((_ :: _) as ko) => ko
    | _ => []
    end in
  match Py.sorted_raising (cmp_to_key_lt (compare_image_keys key_order))
          image_key_set with
  | Some l => Some (mkImageKey l)
  | None => None
  end.

(* ===================================================================== *)
(** ** The outside world *)
(* ===================================================================== *)

(** A [pathlib.Path] is kept as the string it was built from.  [Path.name]
    is the last component; empty components and ["."] components are
    dropped by [pathlib] when a path is parsed. *)
Definition Path := string.

Fixpoint path_name_from (s cur last : string) : string :=
  let keep := if String.eqb cur "" || String.eqb cur "." then last else cur in
  match s with
  | EmptyString => keep
  | String c s' =>
      if Ascii.eqb c "/" then path_name_from s' "" keep
      else path_name_from s' (cur ++ String c "")%string last
  end.

Definition path_name (p : Path) : string := path_name_from p "" "".

Record Dockerfile : Type := mkDockerfile {
  dockerfile_path_ : Path;
  context_dir_ : Path;
  image_key_ : ImageKey
}.

(** [Dockerfile.image_key] *)
Definition Dockerfile_image_key (d : Dockerfile) : string :=
  ImageKey_str (image_key_ d).

(** [ImageBuildPlan]; its [image_key_] attribute is [plan_image_key_]
    here, the name being taken by [Dockerfile]. *)
Record ImageBuildPlan : Type := mkImageBuildPlan {
  dockerfiles_ : list Dockerfile;
  plan_image_key_ : option ImageKey;
  build_variables_ : Py.dict string
}.

(** [ImageBuildPlan(dockerfiles, image_key)] *)
Definition new_ImageBuildPlan (dockerfiles : list Dockerfile)
  (image_key : option ImageKey) : ImageBuildPlan :=
  mkImageBuildPlan dockerfiles image_key [].

Section Program.

(** The file system: the content of the regular file at a path, if there
    is one. *)
Variable fs : Path -> option string.

(** [hashlib.md5(bytes).hexdigest()], which is also what [md5sum] prints. *)
Variable md5 : string -> string.

Definition is_file (p : Path) : bool :=
  match fs p with
  | Some _ => true
  | None => false
  end.

(* ===================================================================== *)
(** ** [resolve_dockerfiles] *)
(* ===================================================================== *)

(** The loop over [docker_search_dirs] for one candidate. *)
Fixpoint search_dirs (docker_search_dirs : list string)
  (layer_image_ids : list string) : option Dockerfile :=
  match docker_search_dirs with
  | [] => None
  | docker_search_dir :: rest =>
      let dockerfile :=
        (docker_search_dir ++ "/Dockerfile."
           ++ Py.join "." layer_image_ids)%string in
      if is_file dockerfile
      then Some (mkDockerfile dockerfile docker_search_dir
                   (mkImageKey layer_image_ids))
      else search_dirs rest layer_image_ids
  end.

(** The loop [for i in reversed(range(len(image_ids)))], over the indices
    still to visit.  Besides the match (the index and the layer found) it
    returns the candidates it searched for, in order: what the verbose
    mode prints as "Searching for ...". *)
Fixpoint scan (ignore_composite_keys : bool) (docker_search_dirs : list string)
  (image_ids : list string) (indices : list nat)
  : option (nat * Dockerfile) * list (list string) :=
  match indices with
  | [] => (None, [])
  | i :: rest =>
      if ignore_composite_keys && Nat.eqb i 1 then (None, [])
      else
        let layer_image_ids := firstn (i + 1) image_ids in
        match search_dirs docker_search_dirs layer_image_ids with
        | Some d => (Some (i, d), [layer_image_ids])
        | None =>
            let (r, searched) :=
              scan ignore_composite_keys docker_search_dirs image_ids rest in
            (r, layer_image_ids :: searched)
        end
  end.

Definition reversed_range (n : nat) : list nat := rev (seq 0 n).

(** One pass of the [while] body up to the progress test: the new
    [image_ids] and [dockerfiles]. *)
Definition resolve_round (ignore_composite_keys : bool)
  (docker_search_dirs : list string)
  (image_ids : list string) (dockerfiles : list Dockerfile)
  : list string * list Dockerfile :=
  match fst (scan ignore_composite_keys docker_search_dirs image_ids
               (reversed_range (List.length image_ids))) with
  | Some (i, d) => (skipn (i + 1) image_ids, dockerfiles ++ [d])
  | None => (image_ids, dockerfiles)
  end.

Lemma resolve_round_length ign dirs ids ds :
  List.length (fst (resolve_round ign dirs ids ds)) <= List.length ids.
Proof.
  unfold resolve_round.
  destruct (fst (scan ign dirs ids (reversed_range (List.length ids))))
    as [[i d]|]; simpl; [rewrite length_skipn|]; lia.
Qed.

(** One pass of the [while] body with its progress test
    [unmatched_id_count == len(image_ids)]: [None] is [return None]. *)
Definition resolve_step (ignore_composite_keys : bool)
  (docker_search_dirs : list string)
  (image_ids : list string) (dockerfiles : list Dockerfile)
  : option (list string * list Dockerfile) :=
  let unmatched_id_count := List.length image_ids in
  let '(image_ids', dockerfiles') :=
    resolve_round ignore_composite_keys docker_search_dirs
      image_ids dockerfiles in
  if Nat.eqb unmatched_id_count (List.length image_ids') then None
  else Some (image_ids', dockerfiles').

Lemma resolve_step_shorter ign dirs ids ds ids' ds' :
  resolve_step ign dirs ids ds = Some (ids', ds') ->
  List.length ids' < List.length ids.
Proof.
  unfold resolve_step.
  pose proof (resolve_round_length ign dirs ids ds) as Hle.
  destruct (resolve_round ign dirs ids ds) as [i d]. simpl in Hle.
  destruct (Nat.eqb_spec (List.length ids) (List.length i)) as [He|Hne];
    [discriminate|].
  intros [= <- <-]. lia.
Qed.

(** The [while image_ids:] loop.  It ends because every pass that does
    not return shortens [image_ids]. *)
Equations? resolve_loop (ignore_composite_keys : bool)
  (docker_search_dirs : list string)
  (image_ids : list string) (dockerfiles : list Dockerfile)
  : option (list Dockerfile) by wf (List.length image_ids) lt :=
  resolve_loop ign dirs [] dockerfiles := Some dockerfiles;
  resolve_loop ign dirs (k :: ks) dockerfiles
    with inspect (resolve_step ign dirs (k :: ks) dockerfiles) => {
    | exist _ None _ := None;
    | exist _ (Some (image_ids', dockerfiles')) Hstep :=
        resolve_loop ign dirs image_ids' dockerfiles' }.
Proof.
  apply resolve_step_shorter in Hstep. exact Hstep.
Qed.

Definition resolve_dockerfiles (image_key : ImageKey)
  (docker_search_dirs : list string) (ignore_composite_keys : bool)
  : option ImageBuildPlan :=
  match resolve_loop ignore_composite_keys docker_search_dirs
          (image_keys_ image_key) [] with
  | Some dockerfiles => Some (new_ImageBuildPlan dockerfiles (Some image_key))
  | None => None
  end.

(* ===================================================================== *)
(** ** Fingerprints *)
(* ===================================================================== *)

(** [calculate_md5]: the digest of a file's bytes.  Opening a missing
    file raises, which is [None]. *)
Definition calculate_md5 (filename : Path) : option string :=
  match fs filename with
  | Some bytes => Some (md5 bytes)
  | None => None
  end.

(** What [md5sum name] prints on standard output when run in directory
    [cwd]: the digest, two spaces, the name as given and a newline; nothing
    when the file cannot be read (the complaint goes to standard error).
    Names are taken to be plain shell words. *)
Definition md5sum_stdout (cwd : Path) (name : string) : string :=
  match fs (cwd ++ "/" ++ name)%string with
  | Some bytes => (md5 bytes ++ "  " ++ name ++ String "010" "")%string
  | None => EmptyString
  end.

(** The line [md5hash] appends for one Dockerfile: [os.chdir] into its
    context directory, then [md5sum <name> >> tmp_file].  Search
    directories are absolute paths, as [Config.load] makes them, so the
    directory entered does not depend on the one entered before. *)
Definition md5sum_line (d : Dockerfile) : string :=
  md5sum_stdout (context_dir_ d) (path_name (dockerfile_path_ d)).

Definition tmp_file : string := "/tmp/dockerhash.tmp".

(** [ImageBuildPlan.md5hash], on the plan's [dockerfiles_].  The state
    threaded through the loop is the content of [tmp_file], empty after
    [rm] and [touch]. *)
Definition md5hash (dockerfiles : list Dockerfile) : string :=
  let content :=
    fold_left (fun content d => (content ++ md5sum_line d)%string)
      (Py.sorted (fun x y => String.ltb (Dockerfile_image_key x)
                                        (Dockerfile_image_key y))
         dockerfiles)
      EmptyString in
  Py.before_space (md5 content ++ "  " ++ tmp_file)%string.

(** [ImageBuildPlan.target_name] and [hashless_target_name]. *)
Definition target_name (dockerfiles : list Dockerfile) : string :=
  let names := Py.join "-" (map Dockerfile_image_key dockerfiles) in
  (names ++ "_" ++ md5hash dockerfiles)%string.

Definition hashless_target_name (dockerfiles : list Dockerfile) : string :=
  Py.join "-" (map Dockerfile_image_key dockerfiles).

(** [ImageBuildPlan.target_names] *)
Definition target_names (dockerfiles : list Dockerfile) : list string :=
  map (fun i => target_name (firstn (i + 1) dockerfiles))
    (seq 0 (List.length dockerfiles)).

(* ===================================================================== *)
(** ** [ImageBuildPlan.generate_bake_dict] *)
(* ===================================================================== *)

(** How an f-string renders an optional string. *)
Definition fmt (o : option string) : string :=
  match o with
  | Some s => s
  | None => "None"
  end.

(** Truth value of an optional string: [None] and [""] are false. *)
Definition truthy (o : option string) : bool :=
  match o with
  | Some s => negb (String.eqb s "")
  | None => false
  end.

(** One entry of [build_plan['targets']].  A key the source never sets on
    a target is [None]; ['name'] and ['tags'] are set on every target. *)
Record Target : Type := mkTarget {
  t_name : string;
  t_context : option string;
  t_dockerfile : option string;
  t_dockerfile_inline : option string;
  t_args : option (Py.dict string);
  t_tags : list string;
  t_depends_on : option (list string)
}.

Record BakePlan : Type := mkBakePlan {
  variables : Py.dict string;
  targets : Py.dict Target
}.

Inductive Raised : Type :=
| KeyError (key : string)
| IndexError.

Inductive Result (A : Type) : Type :=
| Ok (a : A)
| Raise (e : Raised).
Arguments Ok {A} a.
Arguments Raise {A} e.

(** The arguments of [generate_bake_dict]; [cache_to_registry] is never
    read by the method and is left out. *)
Section Bake.
Variable arch : string.
Variable cache_from_registry : option string.
Variable target_image_name : option string.
Variable base_image : option string.
Variable context_dir : option string.
Variable extra_build_args : option (Py.dict string).
Variable nvcr_tag : bool.

Definition nvcr_url : option string := None.

Definition file_arch : string :=
  if String.eqb arch "aarch64" then "arm64" else "amd64".

Definition platform : string := file_arch.

(** [cache_from_registry and "nvcr.io" in cache_from_registry] *)
Definition nvcr_registry : bool :=
  match cache_from_registry with
  | Some r => negb (String.eqb r "") && Py.str_in "nvcr.io" r
  | None => false
  end.

Definition get_target (dockerfiles : list Dockerfile) : string :=
  target_name dockerfiles.

(** The body of [for i, target in enumerate(dockerfile_list)], in two
    parts: the dict built for the stage, and its place in [targets].
    The local [target_name] of the source is [tname]. *)
Definition stage_dict (dockerfile_list : list Dockerfile)
  (i : nat) (target : Dockerfile) : Target :=
  let tname := get_target (firstn (i + 1) dockerfile_list) in
  let context := context_dir_ target in
  let dockerfile := path_name (dockerfile_path_ target) in
  let args := [("PLATFORM", file_arch)] in
  let target_dict :=
    if Nat.eqb i 0 then
      let tags :=
        if nvcr_registry
        then [(fmt cache_from_registry ++ ":" ++ tname ++ "-"
                 ++ platform)%string]
        else [(fmt cache_from_registry ++ "/" ++ tname ++ "-"
                 ++ platform ++ ":latest")%string] in
      let args :=
        match base_image with
        | Some b => Py.set "BASE_IMAGE" b args
        | None => args
        end in
      mkTarget tname (Some context) (Some dockerfile) None
        (Some args) tags None
    else
      let depends_name := target_name (firstn i dockerfile_list) in
      let '(tags, base_image_ref) :=
        if nvcr_registry
        then ([(fmt cache_from_registry ++ ":" ++ tname ++ "-"
                  ++ platform)%string],
              (fmt cache_from_registry ++ ":" ++ depends_name ++ "-"
                 ++ platform)%string)
        else ([(fmt cache_from_registry ++ "/" ++ tname ++ "-"
                  ++ platform ++ ":latest")%string],
              (fmt cache_from_registry ++ "/" ++ depends_name ++ "-"
                 ++ platform ++ ":latest")%string) in
      mkTarget tname (Some context) (Some dockerfile) None
        (Some (Py.update args [("BASE_IMAGE", base_image_ref)]))
        tags (Some [get_target (firstn i dockerfile_list)]) in
  if nvcr_tag
  then mkTarget (t_name target_dict) (t_context target_dict)
         (t_dockerfile target_dict) (t_dockerfile_inline target_dict)
         (t_args target_dict)
         (t_tags target_dict
            ++ [(fmt nvcr_url ++ ":" ++ tname)%string])
         (t_depends_on target_dict)
  else target_dict.

Definition bake_stage (dockerfile_list : list Dockerfile)
  (targets : Py.dict Target) (i : nat) (target : Dockerfile)
  : Py.dict Target :=
  Py.set (get_target (firstn (i + 1) dockerfile_list))
    (stage_dict dockerfile_list i target) targets.

(** The whole [enumerate] loop, from stage [i] on. *)
Fixpoint bake_stages (dockerfile_list : list Dockerfile)
  (targets : Py.dict Target) (i : nat) (rest : list Dockerfile)
  : Py.dict Target :=
  match rest with
  | [] => targets
  | target :: rest' =>
      bake_stages dockerfile_list
        (bake_stage dockerfile_list targets i target) (S i) rest'
  end.

(** [target['args'].update(extra_build_args)], creating ['args'] when
    the target has none. *)
Definition add_extra_args (extra : Py.dict string) (target : Target)
  : Target :=
  let args :=
    match t_args target with
    | Some a => a
    | None => []
    end in
  mkTarget (t_name target) (t_context target) (t_dockerfile target)
    (t_dockerfile_inline target) (Some (Py.update args extra))
    (t_tags target) (t_depends_on target).

Definition set_context (c : string) (target : Target) : Target :=
  mkTarget (t_name target) (Some c) (t_dockerfile target)
    (t_dockerfile_inline target) (t_args target)
    (t_tags target) (t_depends_on target).

Definition generate_bake_dict (self : ImageBuildPlan) : Result BakePlan :=
  let dockerfile_list := dockerfiles_ self in
  let variables :=
    Py.update (build_variables_ self)
      [("ARCH", arch); ("FILE_ARCH", file_arch);
       ("CACHE_FROM_REGISTRY",
        if truthy cache_from_registry then fmt cache_from_registry
        else "local")] in
  let targets := bake_stages dockerfile_list [] 0 dockerfile_list in
  let targets :=
    match extra_build_args with
    | Some ((_ :: _) as extra) =>
        map (fun kv => (fst kv, add_extra_args extra (snd kv))) targets
    | _ => targets
    end in
  match target_image_name with
  | None => Ok (mkBakePlan variables targets)
  | Some final_name =>
      let final_key := get_target dockerfile_list in
      match Py.get final_key targets with
      | None => Raise (KeyError final_key)
      | Some final_target =>
          let final_target :=
            match context_dir with
            | Some c => set_context c final_target
            | None => final_target
            end in
          let targets := Py.set final_key final_target targets in
          match t_tags final_target with
          | [] => Raise IndexError
          | tag0 :: _ =>
              let final_target_dict :=
                mkTarget final_name None None
                  (Some ("FROM " ++ tag0)%string) None
                  [final_name] (Some [t_name final_target]) in
              Ok (mkBakePlan variables
                    (Py.set "final_target" final_target_dict targets))
          end
      end
  end.
End Bake.

(* ===================================================================== *)
(** ** [get_image_name] *)
(* ===================================================================== *)

(** [name_suffix] is [os.getenv("CONFIG_CONTAINER_NAME_SUFFIX")] and
    [docker_search_dirs] what [Config.load_shell_common_config] leaves in
    [config.docker_search_dirs_]; that loader never sets
    [image_key_order_], so the key order is [None].  [exit(1)] and an
    exception are [None]. *)
Definition get_image_name (name_suffix : option string)
  (docker_search_dirs : list string)
  (cache_from_registry_name : string) (env_list : list string)
  (file_arch : string) (include_hash : bool) : option string :=
  let base_name := Py.join "-" env_list in
  let base_name :=
    if truthy name_suffix then (base_name ++ "-" ++ fmt name_suffix)%string
    else base_name in
  match from_key_set env_list None with
  | None => None
  | Some image_key =>
      let build_plan :=
        resolve_dockerfiles image_key docker_search_dirs false in
      let base_name :=
        if include_hash then
          match build_plan with
          | Some p => Some (base_name ++ "_" ++ md5hash (dockerfiles_ p))%string
          | None => None
          end
        else Some base_name in
      match base_name with
      | None => None
      | Some base_name =>
          let target_name := (base_name ++ "-" ++ file_arch)%string in
          if Nat.ltb 0 (Py.count "nvcr.io" cache_from_registry_name)
          then Some (cache_from_registry_name ++ ":" ++ target_name)%string
          else Some (cache_from_registry_name ++ "/" ++ target_name
                       ++ ":latest")%string
      end
  end.

End Program.

Arguments Ok {A} a.
Arguments Raise {A} e.

(* ===================================================================== *)
(** * Properties *)
(* ===================================================================== *)

(** ** Strings and their order *)

Lemma string_compare_refl (s : string) : String.compare s s = Eq.
Proof.
  induction s as [|c s IH]; simpl; [reflexivity|].
  unfold Ascii.compare. rewrite N.compare_refl. exact IH.
Qed.

Lemma string_ltb_irrefl (s : string) : String.ltb s s = false.
Proof. unfold String.ltb. rewrite string_compare_refl. reflexivity. Qed.

Lemma string_ltb_leb (a b : string) :
  String.ltb a b = negb (String.leb b a).
Proof.
  unfold String.ltb, String.leb. rewrite (String.compare_antisym a b).
  destruct (String.compare b a); reflexivity.
Qed.

Lemma string_leb_trans (a b c : string) :
  String.leb a b = true -> String.leb b c = true -> String.leb a c = true.
Proof.
  unfold String.leb. revert b c.
  induction a as [|x a IH]; intros [|y b] [|z c]; simpl;
    try reflexivity; try discriminate.
  unfold Ascii.compare.
  destruct (N.compare_spec (N_of_ascii x) (N_of_ascii y)) as [Hxy|Hxy|Hxy];
    destruct (N.compare_spec (N_of_ascii y) (N_of_ascii z)) as [Hyz|Hyz|Hyz];
    try discriminate; intros Hab Hbc.
  - rewrite Hxy, Hyz, N.compare_refl. eapply IH; eassumption.
  - rewrite Hxy. apply N.compare_lt_iff in Hyz. rewrite Hyz. reflexivity.
  - rewrite <- Hyz. apply N.compare_lt_iff in Hxy. rewrite Hxy. reflexivity.
  - assert (Hxz : N.lt (N_of_ascii x) (N_of_ascii z)) by lia.
    apply N.compare_lt_iff in Hxz. rewrite Hxz. reflexivity.
Qed.

Lemma string_ltb_asym (a b : string) :
  String.ltb a b = true -> String.ltb b a = false.
Proof.
  unfold String.ltb. rewrite (String.compare_antisym b a).
  destruct (String.compare a b); simpl; congruence.
Qed.

Lemma string_ltb_total (a b : string) :
  String.ltb a b = false -> String.ltb b a = false -> a = b.
Proof.
  rewrite !string_ltb_leb.
  intros H1 H2. apply String.leb_antisym.
  - destruct (String.leb a b); [reflexivity | discriminate].
  - destruct (String.leb b a); [reflexivity | discriminate].
Qed.


Lemma string_append_assoc (a b c : string) :
  ((a ++ b) ++ c = a ++ (b ++ c))%string.
Proof. induction a as [|x a IH]; simpl; [reflexivity | now rewrite IH]. Qed.


(** ** The sort *)

Section SortFacts.
Context {A : Type}.
Variable lt : A -> A -> bool.

(** [x] may stand in front of [y] in the output. *)
Definition not_after (x y : A) : Prop := lt y x = false.

Lemma insert_perm (x : A) (l : list A) :
  Permutation (Py.insert lt x l) (x :: l).
Proof.
  induction l as [|y l IH]; simpl; [reflexivity|].
  destruct (lt x y); [reflexivity|].
  rewrite IH. apply perm_swap.
Qed.

Lemma sorted_from_perm (l acc : list A) :
  Permutation (Py.sorted_from lt acc l) (acc ++ l).
Proof.
  revert acc. induction l as [|x l IH]; intros acc; simpl.
  - now rewrite app_nil_r.
  - rewrite IH, insert_perm. apply Permutation_middle.
Qed.

Lemma sorted_perm (l : list A) : Permutation (Py.sorted lt l) l.
Proof. apply (sorted_from_perm l []). Qed.

Hypothesis lt_asym : forall x y, lt x y = true -> lt y x = false.
Hypothesis not_after_trans :
  forall x y z, not_after x y -> not_after y z -> not_after x z.

Lemma insert_sorted (x : A) (l : list A) :
  StronglySorted not_after l -> StronglySorted not_after (Py.insert lt x l).
Proof.
  induction 1 as [|y l Hl IH Hy]; simpl.
  - repeat constructor.
  - destruct (lt x y) eqn:Hxy.
    + constructor; [constructor; assumption|].
      constructor; [apply lt_asym, Hxy|].
      eapply Forall_impl; [|exact Hy].
      intros z Hz. eapply not_after_trans; [apply lt_asym, Hxy | exact Hz].
    + constructor; [exact IH|].
      eapply Permutation_Forall; [symmetry; apply insert_perm|].
      constructor; assumption.
Qed.

Lemma sorted_from_sorted (l acc : list A) :
  StronglySorted not_after acc ->
  StronglySorted not_after (Py.sorted_from lt acc l).
Proof.
  revert acc. induction l as [|x l IH]; intros acc Hacc; simpl;
    [assumption|].
  apply IH, insert_sorted, Hacc.
Qed.

Lemma sorted_sorted (l : list A) : StronglySorted not_after (Py.sorted lt l).
Proof. apply sorted_from_sorted. constructor. Qed.
End SortFacts.

(** Two sorted arrangements of the same elements coincide when the order
    separates the elements. *)
Lemma sorted_perm_unique {A : Type} (R : A -> A -> Prop) (l1 l2 : list A) :
  (forall x y, In x l1 -> In y l1 -> R x y -> R y x -> x = y) ->
  StronglySorted R l1 -> StronglySorted R l2 ->
  Permutation l1 l2 -> l1 = l2.
Proof.
  intros Hanti H1. revert l2.
  induction H1 as [|x l1 Hs1 IH Hx]; intros l2 H2 Hp.
  - apply Permutation_nil in Hp. now subst.
  - destruct H2 as [|y l2 Hs2 Hy].
    + symmetry in Hp. apply Permutation_nil in Hp. discriminate.
    + assert (Hxy : x = y).
      { assert (Hin_x : In x (y :: l2))
          by (eapply Permutation_in; [exact Hp | now left]).
        assert (Hin_y : In y (x :: l1))
          by (eapply Permutation_in; [symmetry; exact Hp | now left]).
        destruct Hin_x as [->|Hin_x]; [reflexivity|].
        destruct Hin_y as [->|Hin_y]; [reflexivity|].
        apply Hanti; [now left | now right | |].
        - rewrite Forall_forall in Hx. now apply Hx.
        - rewrite Forall_forall in Hy. now apply Hy. }
      subst y. f_equal.
      apply IH; [|assumption|eapply Permutation_cons_inv; exact Hp].
      intros a b Ha Hb. apply Hanti; now right.
Qed.

(** Under a comparison that never raises, [sorted_raising] is [sorted]. *)
Lemma sorted_raising_pure {A : Type} (ltm : A -> A -> option bool)
  (lt : A -> A -> bool) :
  (forall x y, ltm x y = Some (lt x y)) ->
  forall l, Py.sorted_raising ltm l = Some (Py.sorted lt l).
Proof.
  intros Hlt.
  assert (Hins : forall x l,
             Py.insert_raising ltm x l = Some (Py.insert lt x l)).
  { intros x l. induction l as [|y l IH]; simpl; [reflexivity|].
    rewrite Hlt. destruct (lt x y); [reflexivity|]. now rewrite IH. }
  unfold Py.sorted_raising, Py.sorted. generalize (@nil A) as acc.
  intros acc l. revert acc.
  induction l as [|x l IH]; intros acc; simpl; [reflexivity|].
  rewrite Hins. apply IH.
Qed.

(** ** Key ordering *)

Lemma list_in_index (x : string) (l : list string) :
  Py.list_in x l = match Py.index x l with Some _ => true | None => false end.
Proof.
  induction l as [|y l IH]; simpl; [reflexivity|].
  rewrite (String.eqb_sym x y).
  destruct (String.eqb y x); simpl; [reflexivity|].
  fold (Py.list_in x l). rewrite IH. now destruct (Py.index x l).
Qed.

Lemma index_inj (a b : string) (l : list string) (i : nat) :
  Py.index a l = Some i -> Py.index b l = Some i -> a = b.
Proof.
  revert i. induction l as [|y l IH]; intros i; simpl; [discriminate|].
  destruct (String.eqb_spec y a) as [Ha|Ha];
    destruct (String.eqb_spec y b) as [Hb|Hb].
  - congruence.
  - destruct (Py.index b l); intros; congruence.
  - destruct (Py.index a l); intros; congruence.
  - destruct (Py.index a l) as [ia|]; [|discriminate].
    destruct (Py.index b l) as [ib|]; [|discriminate].
    intros Hia Hib. apply (IH ia); congruence.
Qed.

Lemma index_bound (a : string) (l : list string) (i : nat) :
  Py.index a l = Some i -> nth_error l i = Some a.
Proof.
  revert i. induction l as [|y l IH]; intros i; simpl; [discriminate|].
  destruct (String.eqb_spec y a) as [Ha|Ha].
  - intros [= <-]. now subst.
  - destruct (Py.index a l) as [ia|]; [|discriminate].
    intros [= <-]. simpl. now apply IH.
Qed.

Section KeyOrder.
Variable key_order : list string.

(** The order the comparator describes, in the words of the rule: by
    position when both keys are listed, listed before unlisted, and
    plain string order when neither is listed. *)
Definition key_lt (a b : string) : bool :=
  match Py.index a key_order, Py.index b key_order with
  | Some ia, Some ib => Nat.ltb ia ib
  | Some _, None => true
  | None, Some _ => false
  | None, None => String.ltb a b
  end.

Lemma compare_image_keys_key_lt (a b : string) :
  cmp_to_key_lt (compare_image_keys key_order) a b = Some (key_lt a b).
Proof.
  unfold cmp_to_key_lt, compare_image_keys, key_lt.
  rewrite !list_in_index.
  destruct (Py.index a key_order) as [ia|];
    destruct (Py.index b key_order) as [ib|]; simpl; try reflexivity.
  - now destruct (Nat.ltb ia ib).
  - now destruct (String.ltb a b).
Qed.

Lemma key_lt_asym (a b : string) : key_lt a b = true -> key_lt b a = false.
Proof.
  unfold key_lt.
  destruct (Py.index a key_order) as [ia|];
    destruct (Py.index b key_order) as [ib|]; try congruence.
  - rewrite Nat.ltb_lt, Nat.ltb_ge. lia.
  - apply string_ltb_asym.
Qed.

Lemma key_lt_total (a b : string) :
  key_lt a b = false -> key_lt b a = false -> a = b.
Proof.
  unfold key_lt.
  destruct (Py.index a key_order) as [ia|] eqn:Ha;
    destruct (Py.index b key_order) as [ib|] eqn:Hb; try congruence.
  - rewrite !Nat.ltb_ge. intros H1 H2.
    assert (ia = ib) by lia. subst ib. eapply index_inj; eassumption.
  - apply string_ltb_total.
Qed.

Lemma key_not_after_trans (x y z : string) :
  not_after key_lt x y -> not_after key_lt y z -> not_after key_lt x z.
Proof.
  unfold not_after, key_lt.
  destruct (Py.index x key_order) as [ix|];
    destruct (Py.index y key_order) as [iy|];
    destruct (Py.index z key_order) as [iz|]; try congruence.
  - rewrite !Nat.ltb_ge. lia.
  - rewrite !string_ltb_leb, !negb_false_iff. intros H1 H2.
    eapply string_leb_trans; eassumption.
Qed.

Lemma sorted_keys_unique (l1 l2 : list string) :
  Permutation l1 l2 -> Py.sorted key_lt l1 = Py.sorted key_lt l2.
Proof.
  intros Hp. apply (sorted_perm_unique (not_after key_lt)).
  - intros x y _ _ Hxy Hyx. apply key_lt_total; assumption.
  - apply sorted_sorted; [apply key_lt_asym | apply key_not_after_trans].
  - apply sorted_sorted; [apply key_lt_asym | apply key_not_after_trans].
  - rewrite !sorted_perm. exact Hp.
Qed.
End KeyOrder.

(** [key_order or []] *)
Definition effective_order (key_order : option (list string)) : list string :=
  match key_order with
  | Some ko => ko
  | None => []
  end.

Lemma from_key_set_sorted (image_key_set : list string)
  (key_order : option (list string)) :
  from_key_set image_key_set key_order =
  Some (mkImageKey (Py.sorted (key_lt (effective_order key_order))
                      image_key_set)).
Proof.
  unfold from_key_set.
  assert (Heff : match key_order with
                 | Some ((_ :: _) as ko) => ko
                 | _ => []
                 end = effective_order key_order)
    by (destruct key_order as [[|]|]; reflexivity).
  rewrite Heff.
  rewrite (sorted_raising_pure _ (key_lt (effective_order key_order)));
    [reflexivity|].
  apply compare_image_keys_key_lt.
Qed.

Lemma strongly_sorted_pair {A : Type} (R : A -> A -> Prop)
  (l1 l2 l3 : list A) (a b : A) :
  StronglySorted R (l1 ++ a :: l2 ++ b :: l3) -> R a b.
Proof.
  induction l1 as [|x l1 IH]; simpl; intros H.
  - apply StronglySorted_inv in H. destruct H as [_ H].
    rewrite Forall_forall in H. apply H.
    apply in_or_app. right. now left.
  - apply StronglySorted_inv in H. now apply IH.
Qed.

(** Lines 647-649 of [main]: order the key set, then resolve it. *)
Definition main_build_plan (image_key_set : list string)
  (image_key_order : option (list string))
  (fs : Path -> option string) (docker_search_dirs : list string)
  : option ImageBuildPlan :=
  match from_key_set image_key_set image_key_order with
  | Some image_key => resolve_dockerfiles fs image_key docker_search_dirs false
  | None => None
  end.

(** C7: [from_key_set] never fails; its result is a rearrangement of the
    key set in which, for two different keys [a] standing before [b]: if
    both are in the preference list, [a] has the smaller index; if [b] is
    in the list, so is [a]; if neither is, [a] is below [b] in string
    order.  The comparator itself answers for every pair of keys.  With
    no preference list, or an empty one, the result is the key set in
    ascending string order. *)
Theorem C7_from_key_set_order (image_key_set : list string)
  (key_order : option (list string)) :
  exists keys,
    from_key_set image_key_set key_order = Some (mkImageKey keys) /\
    Permutation keys image_key_set /\
    (forall a b, compare_image_keys (effective_order key_order) a b
                   = Some (-1)%Z \/
                 compare_image_keys (effective_order key_order) a b
                   = Some 1%Z) /\
    (forall l1 a l2 b l3,
        keys = l1 ++ a :: l2 ++ b :: l3 -> a <> b ->
        let ko := effective_order key_order in
        (Py.list_in a ko = true -> Py.list_in b ko = true ->
         exists ia ib, Py.index a ko = Some ia /\ Py.index b ko = Some ib /\
                       ia < ib) /\
        (Py.list_in b ko = true -> Py.list_in a ko = true) /\
        (Py.list_in a ko = false -> Py.list_in b ko = false ->
         String.ltb a b = true)) /\
    (effective_order key_order = [] ->
     StronglySorted (fun a b => String.leb a b = true) keys).
Proof.
  exists (Py.sorted (key_lt (effective_order key_order)) image_key_set).
  set (ko := effective_order key_order).
  assert (Hsorted : StronglySorted (not_after (key_lt ko))
                      (Py.sorted (key_lt ko) image_key_set))
    by (apply sorted_sorted; [apply key_lt_asym | apply key_not_after_trans]).
  split; [apply from_key_set_sorted|].
  split; [apply sorted_perm|].
  split.
  { intros a b. unfold compare_image_keys. rewrite !list_in_index.
    destruct (Py.index a ko) as [ia|]; destruct (Py.index b ko) as [ib|];
      simpl; auto.
    - destruct (Nat.ltb ia ib); auto.
    - destruct (String.ltb a b); auto. }
  split.
  { intros l1 a l2 b l3 Heq Hne. cbv zeta.
    rewrite Heq in Hsorted. apply strongly_sorted_pair in Hsorted.
    assert (Hab : key_lt ko a b = true).
    { destruct (key_lt ko a b) eqn:Hab; [reflexivity|].
      exfalso. apply Hne. now apply (key_lt_total ko). }
    clear Hsorted. unfold key_lt in Hab. rewrite !list_in_index.
    destruct (Py.index a ko) as [ia|]; destruct (Py.index b ko) as [ib|];
      repeat split; try congruence.
    intros _ _. exists ia, ib. apply Nat.ltb_lt in Hab. auto. }
  intros Hempty.
  assert (Himpl : forall a b, not_after (key_lt ko) a b ->
                              String.leb a b = true).
  { intros a b. unfold not_after, key_lt. rewrite Hempty. simpl.
    rewrite string_ltb_leb, negb_false_iff. auto. }
  clear - Hsorted Himpl.
  induction Hsorted as [|x l Hl IH Hx]; constructor; [exact IH|].
  eapply Forall_impl; [|exact Hx]. intros y. apply Himpl.
Qed.

(** C6: the key set may be handed over in any order: ordering it and
    resolving the result gives the same key sequence and the same plan
    (or the same failure), for every preference list, file system and
    search path. *)
Theorem C6_order_independence (keys1 keys2 : list string)
  (key_order : option (list string))
  (fs : Path -> option string) (docker_search_dirs : list string) :
  Permutation keys1 keys2 ->
  from_key_set keys1 key_order = from_key_set keys2 key_order /\
  main_build_plan keys1 key_order fs docker_search_dirs =
  main_build_plan keys2 key_order fs docker_search_dirs /\
  (forall ignore_composite_keys image_key1 image_key2,
      from_key_set keys1 key_order = Some image_key1 ->
      from_key_set keys2 key_order = Some image_key2 ->
      resolve_dockerfiles fs image_key1 docker_search_dirs
        ignore_composite_keys =
      resolve_dockerfiles fs image_key2 docker_search_dirs
        ignore_composite_keys).
Proof.
  intros Hp.
  assert (Heq : from_key_set keys1 key_order = from_key_set keys2 key_order).
  { rewrite !from_key_set_sorted. do 2 f_equal.
    now apply sorted_keys_unique. }
  split; [exact Heq|]. split.
  - unfold main_build_plan. now rewrite Heq.
  - intros ign k1 k2 H1 H2. rewrite Heq in H1. congruence.
Qed.

(** ** Layer resolution *)

Lemma join_app (sep : string) (l1 l2 : list string) :
  l1 <> [] -> l2 <> [] ->
  Py.join sep (l1 ++ l2) = (Py.join sep l1 ++ sep ++ Py.join sep l2)%string.
Proof.
  unfold Py.join. intros H1 H2.
  induction l1 as [|x [|y l1] IH]; [contradiction| |].
  - destruct l2; [contradiction | reflexivity].
  - change (String.concat sep ((x :: y :: l1) ++ l2))
      with (x ++ sep ++ String.concat sep ((y :: l1) ++ l2))%string.
    rewrite IH by discriminate.
    change (String.concat sep (x :: y :: l1))
      with (x ++ sep ++ String.concat sep (y :: l1))%string.
    now rewrite !string_append_assoc.
Qed.

Lemma join_concat (sep : string) (ls : list (list string)) :
  Forall (fun l => l <> []) ls ->
  Py.join sep (map (Py.join sep) ls) = Py.join sep (List.concat ls).
Proof.
  induction 1 as [|l ls Hl Hls IH]; [reflexivity|].
  destruct ls as [|l' ls].
  - simpl. now rewrite app_nil_r.
  - change (List.concat (l :: l' :: ls)) with (l ++ List.concat (l' :: ls)).
    rewrite join_app; [|assumption|].
    + rewrite <- IH. reflexivity.
    + inversion Hls; subst. simpl. destruct l'; [contradiction|discriminate].
Qed.

Lemma reversed_range_S (n : nat) :
  reversed_range (S n) = n :: reversed_range n.
Proof. unfold reversed_range. rewrite seq_S, rev_app_distr. reflexivity. Qed.

(** The lengths [hi, hi-1, ..., lo]; empty when [hi < lo]. *)
Fixpoint lengths_down (hi lo : nat) : list nat :=
  match hi with
  | O => []
  | S h => if Nat.leb lo (S h) then S h :: lengths_down h lo else []
  end.

Lemma lengths_down_empty (hi lo : nat) : hi < lo -> lengths_down hi lo = [].
Proof.
  destruct hi as [|h]; cbn [lengths_down]; [reflexivity|]. intros H.
  destruct (Nat.leb_spec lo (S h)); [lia | reflexivity].
Qed.

Lemma lengths_down_S (h lo : nat) :
  lo <= S h -> lengths_down (S h) lo = S h :: lengths_down h lo.
Proof.
  intros H. cbn [lengths_down].
  destruct (Nat.leb_spec lo (S h)); [reflexivity | lia].
Qed.

Arguments lengths_down : simpl never.

Example lengths_down_to_1 : lengths_down 4 1 = [4; 3; 2; 1].
Proof. reflexivity. Qed.

Example lengths_down_to_3 : lengths_down 4 3 = [4; 3].
Proof. reflexivity. Qed.

Example lengths_down_none : lengths_down 2 3 = [].
Proof. reflexivity. Qed.

Section ResolverFacts.
Variable fs : Path -> option string.

(** [Path(f"{docker_search_dir}/Dockerfile.{layer_image_suffix}")] *)
Definition layer_path (dir : string) (layer_image_ids : list string)
  : Path :=
  (dir ++ "/Dockerfile." ++ Py.join "." layer_image_ids)%string.

(** The [Dockerfile] recorded for a candidate found in [dir]. *)
Definition layer (dir : string) (layer_image_ids : list string)
  : Dockerfile :=
  mkDockerfile (layer_path dir layer_image_ids) dir
    (mkImageKey layer_image_ids).

(** No directory of [dirs] holds a file for the candidate. *)
Definition no_dir_with (dirs : list string) (ids : list string) : Prop :=
  Forall (fun x => is_file fs (layer_path x ids) = false) dirs.

(** [dir] is the first directory of [dirs] holding a file for the
    candidate. *)
Definition first_dir_with (dirs : list string) (ids : list string)
  (dir : string) : Prop :=
  exists pre post,
    dirs = pre ++ dir :: post /\
    is_file fs (layer_path dir ids) = true /\
    no_dir_with pre ids.



Lemma search_dirs_Some dirs ids d :
  search_dirs fs dirs ids = Some d ->
  first_dir_with dirs ids (context_dir_ d) /\ d = layer (context_dir_ d) ids.
Proof.
  induction dirs as [|x dirs IH]; cbn [search_dirs]; [discriminate|].
  fold (layer_path x ids).
  destruct (is_file fs (layer_path x ids)) eqn:Hx.
  - intros [= Hd]. subst d. simpl. split; [|reflexivity].
    exists [], dirs. repeat split; [assumption | constructor].
  - intros Hd. destruct (IH Hd) as [(pre & post & -> & Hf & Hpre) Heq].
    split; [|assumption].
    exists (x :: pre), post. repeat split; [assumption|].
    constructor; assumption.
Qed.



(** The smallest index the [for] loop visits. *)
Definition floor_index (ignore_composite_keys : bool) (n : nat) : nat :=
  if ignore_composite_keys && Nat.leb 2 n then 2 else 0.

Lemma scan_spec ign dirs ids n :
  let r := scan fs ign dirs ids (reversed_range n) in
  let f := floor_index ign n in
  match fst r with
  | Some (i, d) =>
      f <= i < n /\
      search_dirs fs dirs (firstn (i + 1) ids) = Some d /\
      (forall j, i < j < n ->
                 search_dirs fs dirs (firstn (j + 1) ids) = None) /\
      snd r = map (fun len => firstn len ids) (lengths_down n (i + 1))
  | None =>
      (forall j, f <= j < n ->
                 search_dirs fs dirs (firstn (j + 1) ids) = None) /\
      snd r = map (fun len => firstn len ids) (lengths_down n (f + 1))
  end.
Proof.
  induction n as [|n IH].
  - simpl. split; [intros j Hj; lia | reflexivity].
  - cbv zeta in *. rewrite reversed_range_S. simpl scan.
    destruct (ign && Nat.eqb n 1) eqn:Hstop.
    + apply andb_true_iff in Hstop. destruct Hstop as [-> Hn].
      apply Nat.eqb_eq in Hn. subst n. unfold floor_index. simpl.
      split; [intros j Hj; lia | reflexivity].
    + assert (Hfloor : floor_index ign (S n) <= n /\
                       (n = 0 \/ floor_index ign n = floor_index ign (S n))).
      { unfold floor_index. destruct ign; simpl in *.
        - apply Nat.eqb_neq in Hstop.
          destruct n as [|[|n]]; simpl; [lia | lia | split; [lia|now right]].
        - split; [lia | now right]. }
      destruct Hfloor as [Hfle Hfeq].
      destruct (search_dirs fs dirs (firstn (n + 1) ids)) as [d|] eqn:Hs.
      * simpl. split; [lia|]. split; [assumption|]. split.
        -- intros j Hj; lia.
        -- rewrite !Nat.add_1_r, lengths_down_S by lia.
           rewrite lengths_down_empty by lia. reflexivity.
      * destruct (scan fs ign dirs ids (reversed_range n))
          as [[[i d]|] searched] eqn:Hscan; simpl in *.
        -- destruct IH as (Hi & Hsi & Hlater & Hlog).
           split; [destruct Hfeq as [-> | <-]; lia|].
           split; [assumption|]. split.
           ++ intros j Hj. destruct (Nat.eq_dec j n) as [->|Hne];
                [assumption | apply Hlater; lia].
           ++ rewrite lengths_down_S by lia. cbn [map].
              now rewrite Hlog, (Nat.add_1_r n).
        -- destruct IH as (Hnone & Hlog). split.
           ++ intros j Hj. destruct (Nat.eq_dec j n) as [->|Hne];
                [assumption|].
              apply Hnone. destruct Hfeq as [-> | ->]; lia.
           ++ rewrite lengths_down_S by lia. cbn [map].
              rewrite Hlog, (Nat.add_1_r n).
              destruct Hfeq as [-> | ->]; [|reflexivity].
              now rewrite !lengths_down_empty by lia.
Qed.
End ResolverFacts.

Section LoopFacts.
Variable fs : Path -> option string.
Variable ign : bool.
Variable dirs : list string.

Lemma resolve_loop_nil ds : resolve_loop fs ign dirs [] ds = Some ds.
Proof. apply resolve_loop_equation_1. Qed.

Lemma resolve_loop_pass ids ds :
  ids <> [] ->
  resolve_loop fs ign dirs ids ds =
  match resolve_step fs ign dirs ids ds with
  | Some (ids', ds') => resolve_loop fs ign dirs ids' ds'
  | None => None
  end.
Proof.
  destruct ids as [|k ks]; [contradiction|]. intros _.
  rewrite resolve_loop_equation_2.
  generalize (inspect (resolve_step fs ign dirs (k :: ks) ds)).
  intros [[[ids' ds']|] Heq].
  - transitivity (resolve_loop fs ign dirs ids' ds'); [|now rewrite Heq].
    reflexivity.
  - transitivity (@None (list Dockerfile)); [|now rewrite Heq].
    reflexivity.
Qed.

(** What one pass does, in terms of the scan. *)
Lemma resolve_step_match ids ds i d :
  ids <> [] ->
  fst (scan fs ign dirs ids (reversed_range (List.length ids)))
    = Some (i, d) ->
  resolve_step fs ign dirs ids ds = Some (skipn (i + 1) ids, ds ++ [d]).
Proof.
  intros Hne Hscan. unfold resolve_step, resolve_round. rewrite Hscan.
  destruct (Nat.eqb_spec (List.length ids)
              (List.length (skipn (i + 1) ids))) as [He|_];
    [|reflexivity].
  rewrite length_skipn in He.
  destruct ids; [contradiction | cbn [List.length] in He; lia].
Qed.

Lemma resolve_step_no_match ids ds :
  fst (scan fs ign dirs ids (reversed_range (List.length ids))) = None ->
  resolve_step fs ign dirs ids ds = None.
Proof.
  intros Hscan. unfold resolve_step, resolve_round. rewrite Hscan.
  now rewrite Nat.eqb_refl.
Qed.

(** Induction along the passes of the loop. *)
Lemma resolve_loop_induction
  (P : list string -> list Dockerfile -> option (list Dockerfile) -> Prop) :
  (forall ds, P [] ds (Some ds)) ->
  (forall ids ds,
      ids <> [] ->
      fst (scan fs ign dirs ids (reversed_range (List.length ids))) = None ->
      P ids ds None) ->
  (forall ids ds i d,
      ids <> [] ->
      fst (scan fs ign dirs ids (reversed_range (List.length ids)))
        = Some (i, d) ->
      P (skipn (i + 1) ids) (ds ++ [d])
        (resolve_loop fs ign dirs (skipn (i + 1) ids) (ds ++ [d])) ->
      P ids ds (resolve_loop fs ign dirs (skipn (i + 1) ids) (ds ++ [d]))) ->
  forall ids ds, P ids ds (resolve_loop fs ign dirs ids ds).
Proof.
  intros Hnil Hfail Hstep ids.
  induction ids as [ids IH] using (induction_ltof1 _ (@List.length string)).
  unfold ltof in IH. intros ds.
  destruct ids as [|k ks]; [rewrite resolve_loop_nil; apply Hnil|].
  assert (Hne : k :: ks <> []) by discriminate.
  rewrite resolve_loop_pass by assumption.
  destruct (fst (scan fs ign dirs (k :: ks)
                   (reversed_range (List.length (k :: ks)))))
    as [[i d]|] eqn:Hscan.
  - rewrite (resolve_step_match _ ds _ _ Hne Hscan).
    apply Hstep; [assumption..|].
    apply IH. rewrite length_skipn. cbn [List.length]. lia.
  - rewrite (resolve_step_no_match _ ds Hscan). now apply Hfail.
Qed.

Lemma scan_layer ids n i d :
  fst (scan fs ign dirs ids (reversed_range n)) = Some (i, d) ->
  i < n /\ d = layer (context_dir_ d) (firstn (i + 1) ids).
Proof.
  intros Hscan. pose proof (scan_spec fs ign dirs ids n) as Hspec.
  cbv zeta in Hspec. rewrite Hscan in Hspec.
  destruct Hspec as (Hi & Hs & _). split; [lia|].
  now apply search_dirs_Some in Hs.
Qed.

(** The keys a chain of layers covers, in chain order. *)
Definition chain_keys (dockerfiles : list Dockerfile) : list string :=
  List.concat (map (fun d => image_keys_ (image_key_ d)) dockerfiles).

Lemma resolve_loop_covers ids ds out :
  resolve_loop fs ign dirs ids ds = Some out ->
  exists new,
    out = ds ++ new /\ chain_keys new = ids /\
    Forall (fun d => image_keys_ (image_key_ d) <> []) new.
Proof.
  revert out.
  apply (resolve_loop_induction
           (fun ids ds r =>
              forall out, r = Some out ->
                exists new, out = ds ++ new /\ chain_keys new = ids /\
                  Forall (fun d => image_keys_ (image_key_ d) <> []) new)).
  - intros ds0 out [= <-]. exists []. rewrite app_nil_r.
    repeat split. constructor.
  - discriminate.
  - intros ids0 ds0 i d Hne Hscan IH out Hout.
    destruct (IH out Hout) as (new & -> & Hkeys & Hall).
    apply scan_layer in Hscan. destruct Hscan as [Hi Hd].
    exists (d :: new). rewrite <- app_assoc. split; [reflexivity|].
    split.
    + unfold chain_keys in *. simpl. rewrite Hkeys, Hd. simpl.
      apply firstn_skipn.
    + constructor; [|assumption]. rewrite Hd. simpl.
      destruct ids0; [contradiction|]. rewrite Nat.add_1_r. discriminate.
Qed.
End LoopFacts.

Section ChainFacts.
Variable fs : Path -> option string.

(** The layers [resolve_dockerfiles] returns for a key sequence. *)
Definition resolved_chain (docker_search_dirs : list string)
  (ignore_composite_keys : bool) (image_ids : list string)
  : option (list Dockerfile) :=
  option_map dockerfiles_
    (resolve_dockerfiles fs (mkImageKey image_ids) docker_search_dirs
       ignore_composite_keys).





End ChainFacts.

(** C1: a chain that [resolve_dockerfiles] returns covers the key
    sequence exactly: the key lists of its layers, concatenated in chain
    order, are the key sequence; no layer is empty; and the dotted
    composite keys of the layers, joined by a dot, spell the dotted key
    sequence. *)
Theorem C1_chain_covers_key_sequence (fs : Path -> option string)
  (image_key : ImageKey) (docker_search_dirs : list string)
  (ignore_composite_keys : bool) (plan : ImageBuildPlan) :
  resolve_dockerfiles fs image_key docker_search_dirs ignore_composite_keys
    = Some plan ->
  chain_keys (dockerfiles_ plan) = image_keys_ image_key /\
  Forall (fun d => image_keys_ (image_key_ d) <> []) (dockerfiles_ plan) /\
  Py.join "." (map Dockerfile_image_key (dockerfiles_ plan))
    = ImageKey_str image_key.
Proof.
  unfold resolve_dockerfiles.
  destruct (resolve_loop fs ignore_composite_keys docker_search_dirs
              (image_keys_ image_key) []) as [out|] eqn:Hloop; [|discriminate].
  intros [= <-]. simpl.
  apply resolve_loop_covers in Hloop.
  destruct Hloop as (new & -> & Hkeys & Hall). simpl.
  split; [assumption|]. split; [assumption|].
  unfold ImageKey_str. rewrite <- Hkeys. unfold chain_keys.
  rewrite <- join_concat.
  - now rewrite map_map.
  - apply Forall_map. exact Hall.
Qed.

(** C10: the empty key sequence resolves, for every file system, search
    path and flag, to a plan with no layers; it is not the failure. *)
Theorem C10_empty_key_sequence_resolves (fs : Path -> option string)
  (docker_search_dirs : list string) (ignore_composite_keys : bool) :
  resolve_dockerfiles fs (mkImageKey []) docker_search_dirs
    ignore_composite_keys
  = Some (new_ImageBuildPlan [] (Some (mkImageKey []))).
Proof.
  unfold resolve_dockerfiles. simpl. now rewrite resolve_loop_nil.
Qed.



(** ** Fingerprints *)

(** The shape of a hex digest: 32 characters out of [0-9a-f]. *)
Definition hex_char (c : ascii) : bool :=
  existsb (Ascii.eqb c) (list_ascii_of_string "0123456789abcdef").

Definition hexdigest_shape (s : string) : bool :=
  Nat.eqb (String.length s) 32 && forallb hex_char (list_ascii_of_string s).

Lemma hex_digit_hex_char (n : N) : (n < 16)%N -> hex_char (MD5.hex_digit n) = true.
Proof.
  destruct n as [|p]; [reflexivity|]. intros Hp.
  do 4 (destruct p as [p|p|]; try reflexivity); lia.
Qed.

Lemma hex_shape (bytes : list N) :
  Forall (fun b => (b < 256)%N) bytes ->
  String.length (MD5.hex bytes) = 2 * List.length bytes /\
  forallb hex_char (list_ascii_of_string (MD5.hex bytes)) = true.
Proof.
  induction 1 as [|b bytes Hb Hbytes [IHlen IHhex]]; [now split|].
  cbn [MD5.hex String.length List.length list_ascii_of_string forallb].
  split; [lia|].
  rewrite IHhex, !hex_digit_hex_char; [reflexivity| |].
  - apply N.mod_lt. discriminate.
  - apply N.Div0.div_lt_upper_bound. exact Hb.
Qed.

Lemma le_bytes_bound (n : nat) (x : N) :
  Forall (fun b => (b < 256)%N) (MD5.le_bytes n x).
Proof.
  revert x. induction n as [|n IH]; intros x; simpl; constructor.
  - apply N.mod_lt. discriminate.
  - apply IH.
Qed.

Lemma le_bytes_length (n : nat) (x : N) : List.length (MD5.le_bytes n x) = n.
Proof. revert x. induction n as [|n IH]; intros x; simpl; auto. Qed.

(** [hashlib]'s digest has the shape of a hex digest. *)
Lemma md5_hexdigest_shape (s : string) :
  hexdigest_shape (MD5.hexdigest s) = true.
Proof.
  unfold MD5.hexdigest, MD5.digest.
  destruct (fold_left MD5.process _ MD5.initial) as [[[a b] c] d].
  destruct (hex_shape (MD5.le_bytes 4 a ++ MD5.le_bytes 4 b
                         ++ MD5.le_bytes 4 c ++ MD5.le_bytes 4 d))
    as [Hlen Hhex].
  { repeat (apply Forall_app; split); apply le_bytes_bound. }
  unfold hexdigest_shape. rewrite Hhex, Hlen.
  rewrite !length_app, !le_bytes_length. reflexivity.
Qed.






Section FingerprintFacts.
Variable fs : Path -> option string.
Variable md5 : string -> string.







End FingerprintFacts.


(** ** Dictionaries *)

Section DictFacts.
Context {V : Type}.
Implicit Types (d : Py.dict V) (k : string) (v : V).

Lemma get_set_same k v d : Py.get k (Py.set k v d) = Some v.
Proof.
  induction d as [|[k' v'] d IH]; simpl.
  - now rewrite String.eqb_refl.
  - destruct (String.eqb_spec k' k) as [->|Hne]; simpl.
    + now rewrite String.eqb_refl.
    + apply String.eqb_neq in Hne. now rewrite Hne.
Qed.

Lemma get_set_other k k' v d :
  k <> k' -> Py.get k (Py.set k' v d) = Py.get k d.
Proof.
  intros Hne. induction d as [|[k0 v0] d IH]; simpl.
  - apply not_eq_sym, String.eqb_neq in Hne. now rewrite Hne.
  - destruct (String.eqb_spec k0 k') as [->|Hne0]; simpl.
    + apply not_eq_sym, String.eqb_neq in Hne. now rewrite Hne.
    + now rewrite IH.
Qed.




Lemma get_none_keys k d : Py.get k d = None <-> ~ In k (Py.keys d).
Proof.
  unfold Py.keys. induction d as [|[k' v'] d IH]; simpl.
  - split; [auto | reflexivity].
  - destruct (String.eqb_spec k' k) as [->|Hne].
    + split; [discriminate | intros H; exfalso; apply H; now left].
    + rewrite IH. split; [intros H [?|?]; auto | intros H ?; apply H; auto].
Qed.

Lemma get_in k v d : Py.get k d = Some v -> In (k, v) d.
Proof.
  induction d as [|[k' v'] d IH]; simpl; [discriminate|].
  destruct (String.eqb_spec k' k) as [->|Hne].
  - intros [= ->]. now left.
  - intros H. right. now apply IH.
Qed.

Lemma in_set k v k0 v0 d :
  In (k0, v0) (Py.set k v d) -> (k0, v0) = (k, v) \/ In (k0, v0) d.
Proof.
  induction d as [|[k' v'] d IH]; simpl.
  - intros [H|[]]. left. now symmetry.
  - destruct (String.eqb k' k); simpl.
    + intros [H|H]; [left; now symmetry | right; now right].
    + intros [H|H]; [right; now left|].
      destruct (IH H) as [?|?]; [now left | right; now right].
Qed.



Lemma get_update_none k d e :
  Py.get k e = None -> Py.get k (Py.update d e) = Py.get k d.
Proof.
  unfold Py.update. revert d.
  induction e as [|[k' v'] e IH]; intros d; simpl; [reflexivity|].
  destruct (String.eqb_spec k' k) as [->|Hne]; [discriminate|].
  intros H. rewrite IH by assumption. now apply get_set_other.
Qed.
End DictFacts.

(** ** The bake plan *)

Section BakeFacts.
Variable fs : Path -> option string.
Variable md5 : string -> string.
Hypothesis md5_shape : forall s, hexdigest_shape (md5 s) = true.

Variable arch : string.
Variable cache_from_registry : option string.
Variable target_image_name : option string.
Variable base_image : option string.
Variable context_dir : option string.
Variable extra_build_args : option (Py.dict string).
Variable nvcr_tag : bool.

Variable dockerfile_list : list Dockerfile.

(** The name of stage [i]: [get_target(dockerfile_list[:i+1])]. *)
Definition stage_name (i : nat) : string :=
  target_name fs md5 (firstn (i + 1) dockerfile_list).

(** The tag the registry rule gives a stage name. *)
Definition registry_tag (name : string) : string :=
  if nvcr_registry cache_from_registry
  then (fmt cache_from_registry ++ ":" ++ name ++ "-" ++ file_arch arch)%string
  else (fmt cache_from_registry ++ "/" ++ name ++ "-" ++ file_arch arch
          ++ ":latest")%string.








Abbreviation stage_dict' :=
  (stage_dict fs md5 arch cache_from_registry base_image nvcr_tag
     dockerfile_list).










Lemma stage_dict_args i d :
  exists args,
    t_args (stage_dict' i d) = Some args /\
    Py.get "PLATFORM" args = Some (file_arch arch) /\
    Py.get "BASE_IMAGE" args
    = if Nat.eqb i 0 then base_image
      else Some (registry_tag (stage_name (i - 1))).
Proof.
  unfold stage_dict, get_target, registry_tag, platform, stage_name.
  destruct (Nat.eqb_spec i 0) as [->|Hi].
  - destruct nvcr_tag, base_image; eexists; simpl; auto.
  - replace (i - 1 + 1) with i by lia.
    destruct nvcr_tag, (nvcr_registry cache_from_registry);
      eexists; simpl; auto.
Qed.

Variable image_key : option ImageKey.
Variable build_variables : Py.dict string.

Abbreviation generate :=
  (generate_bake_dict fs md5 arch cache_from_registry target_image_name
     base_image context_dir extra_build_args nvcr_tag
     (mkImageBuildPlan dockerfile_list image_key build_variables)).

(** The merge of the extra build arguments into one target. *)
Definition with_extra (t : Target) : Target :=
  match extra_build_args with
  | Some ((_ :: _) as extra) => add_extra_args extra t
  | _ => t
  end.

Definition extra_or_empty : Py.dict string :=
  match extra_build_args with
  | Some extra => extra
  | None => []
  end.






















Lemma Forall_set {V : Type} (P : string * V -> Prop) k v (d : Py.dict V) :
  Forall P d -> P (k, v) -> Forall P (Py.set k v d).
Proof.
  intros Hd Hkv. induction Hd as [|[k' v'] d Hx Hd IH]; simpl.
  - now constructor.
  - destruct (String.eqb k' k); constructor; assumption.
Qed.


End BakeFacts.

(** ** Registry tags *)

Lemma count_from_str_in (c : ascii) (sub' : string) (fuel : nat) (s : string) :
  String.length s <= fuel ->
  Nat.ltb 0 (Py.count_from fuel (String c sub') s)
  = Py.str_in (String c sub') s.
Proof.
  revert s. induction fuel as [|fuel IH]; intros s Hlen.
  - destruct s; [reflexivity | simpl in Hlen; lia].
  - cbn [Py.count_from].
    destruct s as [|a s].
    + cbn [Py.str_in]. now destruct (String.prefix (String c sub') "").
    + cbn [Py.str_in].
      destruct (String.prefix (String c sub') (String a s)); [reflexivity|].
      simpl orb. apply IH. simpl in Hlen. lia.
Qed.

Lemma count_nvcr_str_in (s : string) :
  Nat.ltb 0 (Py.count "nvcr.io" s) = Py.str_in "nvcr.io" s.
Proof. unfold Py.count. now apply count_from_str_in. Qed.



(* ===================================================================== *)
(** * A worked example *)
(* ===================================================================== *)

(** One search directory, [/ws/docker], holding four layer files. *)
Definition example_fs (p : Path) : option string :=
  if String.eqb p "/ws/docker/Dockerfile.noble" then Some "FROM ubuntu:24.04"
  else if String.eqb p "/ws/docker/Dockerfile.ros2_jazzy" then Some "ARG BASE_IMAGE"
  else if String.eqb p "/ws/docker/Dockerfile.a.b" then Some "FROM scratch"
  else if String.eqb p "/ws/docker/Dockerfile.a" then Some "FROM scratch"
  else None.

Definition example_key : ImageKey := mkImageKey ["noble"; "ros2_jazzy"].

Definition example_chain : list Dockerfile :=
  [layer "/ws/docker" ["noble"]; layer "/ws/docker" ["ros2_jazzy"]].

Definition example_plan : ImageBuildPlan :=
  new_ImageBuildPlan example_chain (Some example_key).

Example example_key_order :
  from_key_set ["ros2_jazzy"; "zed"; "noble"; "realsense"]
    (Some ["noble"; "ros2_jazzy"])
  = Some (mkImageKey ["noble"; "ros2_jazzy"; "realsense"; "zed"]).
Proof. reflexivity. Qed.

Example example_resolution :
  resolve_dockerfiles example_fs example_key ["/ws/docker"] false
  = Some example_plan.
Proof. vm_compute. reflexivity. Qed.

Example example_unresolvable :
  resolve_dockerfiles example_fs (mkImageKey ["unknown_key"]) ["/ws/docker"] false
  = None.
Proof. vm_compute. reflexivity. Qed.

Example example_longest_match :
  resolved_chain example_fs ["/ws/docker"] false ["a"; "b"]
  = Some [layer "/ws/docker" ["a"; "b"]].
Proof. vm_compute. reflexivity. Qed.

Example example_target_names :
  target_names example_fs MD5.hexdigest example_chain
  = ["noble_08459f0ee9e7be012080dc36fa7dec4d";
     "noble-ros2_jazzy_85d49876d7a39b42c0567257fc4fab39"].
Proof. vm_compute. reflexivity. Qed.

Example example_tag_forms :
  match generate_bake_dict example_fs MD5.hexdigest "x86_64"
          (Some "nvcr.io/team/repo") None None None None false example_plan,
        generate_bake_dict example_fs MD5.hexdigest "aarch64"
          (Some "myregistry.example.com") None None None None false
          example_plan with
  | Ok colon, Ok path =>
      map (fun kv => t_tags (snd kv)) (targets colon)
      = [["nvcr.io/team/repo:noble_08459f0ee9e7be012080dc36fa7dec4d-amd64"];
         ["nvcr.io/team/repo:noble-ros2_jazzy_85d49876d7a39b42c0567257fc4fab39-amd64"]] /\
      map (fun kv => t_tags (snd kv)) (targets path)
      = [["myregistry.example.com/noble_08459f0ee9e7be012080dc36fa7dec4d-arm64:latest"];
         ["myregistry.example.com/noble-ros2_jazzy_85d49876d7a39b42c0567257fc4fab39-arm64:latest"]]
  | _, _ => False
  end.
Proof. vm_compute. split; reflexivity. Qed.

(** With a final name and no layer, [targets[final_key]] raises. *)
Example example_empty_chain_final_name :
  generate_bake_dict example_fs MD5.hexdigest "x86_64" (Some "reg")
    (Some "img") None None None false
    (new_ImageBuildPlan [] (Some (mkImageKey [])))
  = Raise (KeyError "_d41d8cd98f00b204e9800998ecf8427e").
Proof. vm_compute. reflexivity. Qed.

(** ** The theorems at the example *)

Lemma C1_chain_covers_witness :
  resolve_dockerfiles example_fs example_key ["/ws/docker"] false
    = Some example_plan /\
  chain_keys (dockerfiles_ example_plan) = image_keys_ example_key /\
  Forall (fun d => image_keys_ (image_key_ d) <> [])
    (dockerfiles_ example_plan) /\
  Py.join "." (map Dockerfile_image_key (dockerfiles_ example_plan))
    = ImageKey_str example_key.
Proof.
  split; [vm_compute; reflexivity|].
  apply (C1_chain_covers_key_sequence example_fs example_key ["/ws/docker"] false
           example_plan).
  vm_compute. reflexivity.
Defined.

Lemma C6_order_independence_witness :
  Permutation ["ros2_jazzy"; "noble"] ["noble"; "ros2_jazzy"] /\
  main_build_plan ["ros2_jazzy"; "noble"] None example_fs ["/ws/docker"]
  = main_build_plan ["noble"; "ros2_jazzy"] None example_fs ["/ws/docker"].
Proof.
  split; [apply perm_swap|].
  exact (proj1 (proj2 (C6_order_independence
                         ["ros2_jazzy"; "noble"] ["noble"; "ros2_jazzy"]
                         None example_fs ["/ws/docker"] (perm_swap _ _ _)))).
Defined.




(** ** Where the code departs from the specification *)




(* ===================================================================== *)
(** * The rest of the script: further functions *)
(* ===================================================================== *)

(** ** More Python built-ins *)

(** [s.split(sep)] for a one-character separator: the pieces between the
    separators; always at least one piece. *)
Fixpoint str_split (sep : ascii) (s : string) : list string :=
  match s with
  | EmptyString => [EmptyString]
  | String c s' =>
      if Ascii.eqb c sep then EmptyString :: str_split sep s'
      else match str_split sep s' with
           | piece :: pieces => String c piece :: pieces
           | [] => [String c EmptyString]
           end
  end.

(** [s.split(sep, 1)]: split at the first separator only. *)
Fixpoint str_split_once (sep : ascii) (s : string) : list string :=
  match s with
  | EmptyString => [EmptyString]
  | String c s' =>
      if Ascii.eqb c sep then [EmptyString; s']
      else match str_split_once sep s' with
           | piece :: pieces => String c piece :: pieces
           | [] => [String c EmptyString]
           end
  end.

(** The character occurs in the string. *)
Fixpoint has_char (c : ascii) (s : string) : bool :=
  match s with
  | EmptyString => false
  | String a s' => Ascii.eqb a c || has_char c s'
  end.

(** [ImageKey.from_string] *)
Definition from_string (image_key_str : string) : ImageKey :=
  mkImageKey (str_split "." image_key_str).

(** The key set [__main__] hands to [main]:
    [set(part for key in args.image_keys for part in key.split('.'))].
    A set has no order of its own; this is the list of the parts it is
    built from, and any list with the same elements stands for the set. *)
Definition main_image_key_parts (image_keys : list string) : list string :=
  flat_map (str_split ".") image_keys.

(** ** Splitting and joining *)

Lemma str_split_not_nil (sep : ascii) (s : string) : str_split sep s <> [].
Proof.
  induction s as [|c s IH]; simpl; [discriminate|].
  destruct (Ascii.eqb c sep); [discriminate|].
  destruct (str_split sep s); [contradiction | discriminate].
Qed.

Lemma concat_cons_char (sep : string) (c : ascii) (piece : string)
  (pieces : list string) :
  String.concat sep (String c piece :: pieces)
  = String c (String.concat sep (piece :: pieces)).
Proof. destruct pieces; reflexivity. Qed.

Lemma join_split (sep : ascii) (s : string) :
  Py.join (String sep "") (str_split sep s) = s.
Proof.
  unfold Py.join. induction s as [|c s IH]; [reflexivity|].
  cbn [str_split]. destruct (Ascii.eqb_spec c sep) as [->|Hne].
  - pose proof (str_split_not_nil sep s) as Hnil.
    destruct (str_split sep s) as [|p ps]; [contradiction|].
    change (String.concat (String sep "") ("" :: p :: ps))
      with (String sep (String.concat (String sep "") (p :: ps))).
    now rewrite IH.
  - pose proof (str_split_not_nil sep s) as Hnil.
    destruct (str_split sep s) as [|p ps]; [contradiction|].
    rewrite concat_cons_char. now rewrite IH.
Qed.

Lemma split_no_sep (sep : ascii) (s : string) :
  has_char sep s = false -> str_split sep s = [s].
Proof.
  induction s as [|c s IH]; simpl; [reflexivity|].
  destruct (Ascii.eqb c sep); simpl; [discriminate|].
  intros H. now rewrite IH.
Qed.

Lemma split_append (sep : ascii) (a rest : string) :
  has_char sep a = false ->
  str_split sep (a ++ String sep rest) = a :: str_split sep rest.
Proof.
  induction a as [|c a IH]; simpl.
  - now rewrite Ascii.eqb_refl.
  - destruct (Ascii.eqb c sep); simpl; [discriminate|].
    intros H. now rewrite IH.
Qed.

Lemma split_pieces_no_sep (sep : ascii) (s : string) :
  Forall (fun piece => has_char sep piece = false) (str_split sep s).
Proof.
  induction s as [|c s IH]; simpl; [repeat constructor|].
  destruct (Ascii.eqb c sep) eqn:Hc; [constructor; [reflexivity | exact IH]|].
  destruct (str_split sep s) as [|p ps]; [repeat constructor; simpl;
                                          now rewrite Hc|].
  inversion IH; subst. constructor; [|assumption].
  simpl. now rewrite Hc.
Qed.

Lemma split_join (sep : ascii) (keys : list string) :
  keys <> [] ->
  Forall (fun k => has_char sep k = false) keys ->
  str_split sep (Py.join (String sep "") keys) = keys.
Proof.
  unfold Py.join. intros Hne Hall.
  induction Hall as [|k keys Hk Hkeys IH]; [contradiction|].
  destruct keys as [|k' keys].
  - simpl. now apply split_no_sep.
  - change (String.concat (String sep "") (k :: k' :: keys))
      with (k ++ String sep (String.concat (String sep "") (k' :: keys)))%string.
    rewrite split_append by assumption.
    rewrite IH by discriminate. reflexivity.
Qed.

(** X1: printing a parsed key gives back the text:
    [str(ImageKey.from_string(s)) == s] for every string. *)
Theorem X1_str_of_from_string (s : string) :
  ImageKey_str (from_string s) = s.
Proof. unfold ImageKey_str, from_string. simpl. apply (join_split "."). Qed.

Lemma from_string_str_keys (keys : list string) :
  keys <> [] ->
  Forall (fun k => has_char "." k = false) keys ->
  from_string (ImageKey_str (mkImageKey keys)) = mkImageKey keys.
Proof.
  intros Hne Hall. unfold from_string, ImageKey_str. simpl. f_equal.
  now apply (split_join ".").
Qed.

(** X2: parsing a printed key gives back the key when it has at least
    one environment key and none of them contains a dot. *)
Theorem X2_from_string_of_str (image_key : ImageKey) :
  image_keys_ image_key <> [] ->
  Forall (fun k => has_char "." k = false) (image_keys_ image_key) ->
  from_string (ImageKey_str image_key) = image_key.
Proof.
  destruct image_key as [keys]. simpl. apply from_string_str_keys.
Qed.

Lemma X2_from_string_of_str_witness :
  image_keys_ example_key <> [] /\
  Forall (fun k => has_char "." k = false) (image_keys_ example_key) /\
  from_string (ImageKey_str example_key) = example_key.
Proof.
  split; [discriminate|]. split; [repeat constructor|].
  apply X2_from_string_of_str; [discriminate | repeat constructor].
Defined.

(** The empty key prints as the empty text, which parses as the key made
    of one empty environment key. *)
Example from_string_of_empty_key :
  from_string (ImageKey_str (mkImageKey [])) = mkImageKey [""].
Proof. reflexivity. Qed.

(** X3: the image key [main] computes from the command line parses back
    from its printed form: the parts of the key set contain no dot,
    whatever the [-i] arguments are, and ordering only rearranges them. *)
Theorem X3_main_image_key_round_trip (image_keys key_set : list string)
  (key_order : option (list string)) (image_key : ImageKey) :
  key_set <> [] ->
  (forall part, In part key_set -> In part (main_image_key_parts image_keys)) ->
  from_key_set key_set key_order = Some image_key ->
  Forall (fun k => has_char "." k = false) (image_keys_ image_key) /\
  from_string (ImageKey_str image_key) = image_key.
Proof.
  intros Hne Hparts Hkey.
  rewrite from_key_set_sorted in Hkey. injection Hkey as <-.
  set (sorted_keys := Py.sorted (key_lt (effective_order key_order)) key_set).
  assert (Hperm : Permutation sorted_keys key_set) by apply sorted_perm.
  assert (Hall : Forall (fun k => has_char "." k = false) sorted_keys).
  { rewrite Forall_forall. intros k Hk.
    apply (Permutation_in _ Hperm), Hparts in Hk.
    unfold main_image_key_parts in Hk. apply in_flat_map in Hk.
    destruct Hk as (arg & _ & Hk).
    pose proof (split_pieces_no_sep "." arg) as Hfree.
    rewrite Forall_forall in Hfree. now apply Hfree. }
  split; [exact Hall|].
  apply from_string_str_keys; [|exact Hall].
  intros Hnil. rewrite Hnil in Hperm.
  apply Permutation_nil in Hperm. contradiction.
Qed.

Lemma X3_main_image_key_round_trip_witness :
  ["realsense"; "noble"; "ros2_jazzy"] <> [] /\
  (forall part, In part ["realsense"; "noble"; "ros2_jazzy"] ->
                In part (main_image_key_parts
                           ["noble.ros2_jazzy"; "realsense"])) /\
  from_key_set ["realsense"; "noble"; "ros2_jazzy"] None
    = Some (mkImageKey ["noble"; "realsense"; "ros2_jazzy"]) /\
  from_string "noble.realsense.ros2_jazzy"
    = mkImageKey ["noble"; "realsense"; "ros2_jazzy"].
Proof.
  assert (Hparts : forall part,
             In part ["realsense"; "noble"; "ros2_jazzy"] ->
             In part (main_image_key_parts ["noble.ros2_jazzy"; "realsense"])).
  { intros part Hin. simpl in *.
    destruct Hin as [<-|[<-|[<-|[]]]]; auto. }
  split; [discriminate|]. split; [exact Hparts|]. split; [reflexivity|].
  exact (proj2 (X3_main_image_key_round_trip
                  ["noble.ros2_jazzy"; "realsense"]
                  ["realsense"; "noble"; "ros2_jazzy"] None
                  (mkImageKey ["noble"; "realsense"; "ros2_jazzy"])
                  ltac:(discriminate) Hparts eq_refl)).
Defined.

(** ** [check_docker_logins] *)

(** What a function that may raise a plain [Exception] gives back. *)
Inductive Outcome (A : Type) : Type :=
| Returns (a : A)
| Raises (message : string).
Arguments Returns {A} a.
Arguments Raises {A} message.

Section Logins.
(** [docker_login]: whether logging in to a registry succeeds. *)
Variable docker_login : string -> bool.

Fixpoint check_docker_logins (base_docker_registry_names : list string)
  (fail_on_anon : bool) : Outcome (option string) :=
  match base_docker_registry_names with
  | [] =>
      if fail_on_anon
      then Raises "Could not login to any of the specified docker registries."
      else Returns None
  | base_docker_registry_name :: rest =>
      if docker_login base_docker_registry_name
      then Returns (Some base_docker_registry_name)
      else check_docker_logins rest fail_on_anon
  end.

Lemma check_docker_logins_cases (names : list string) (fail_on_anon : bool) :
  (exists before name after,
      names = before ++ name :: after /\
      docker_login name = true /\
      Forall (fun n => docker_login n = false) before /\
      check_docker_logins names fail_on_anon = Returns (Some name)) \/
  (Forall (fun n => docker_login n = false) names /\
   check_docker_logins names fail_on_anon
   = if fail_on_anon
     then Raises "Could not login to any of the specified docker registries."
     else Returns None).
Proof.
  induction names as [|n names IH]; simpl.
  - right. split; [constructor | reflexivity].
  - destruct (docker_login n) eqn:Hn.
    + left. exists [], n, names. repeat split; [assumption | constructor].
    + destruct IH as [(before & name & after & -> & Hname & Hbefore & Hres)
                     |[Hall Hres]].
      * left. exists (n :: before), name, after.
        repeat split; [assumption | now constructor | assumption].
      * right. split; [now constructor | assumption].
Qed.

(** X4: [check_docker_logins] returns the first listed registry whose
    login succeeds.  When no login succeeds it returns [None], or raises
    if [fail_on_anon] is set; so with [fail_on_anon] it never returns
    [None]. *)
Theorem X4_check_docker_logins_first_success (names : list string)
  (fail_on_anon : bool) :
  (forall name,
      check_docker_logins names fail_on_anon = Returns (Some name) <->
      exists before after,
        names = before ++ name :: after /\
        docker_login name = true /\
        Forall (fun n => docker_login n = false) before) /\
  (check_docker_logins names fail_on_anon = Returns None <->
   fail_on_anon = false /\ Forall (fun n => docker_login n = false) names) /\
  ((exists message,
       check_docker_logins names fail_on_anon = Raises message) <->
   fail_on_anon = true /\ Forall (fun n => docker_login n = false) names).
Proof.
  assert (Hfirst : forall before name after,
             Forall (fun n => docker_login n = false) before ->
             docker_login name = true ->
             check_docker_logins (before ++ name :: after) fail_on_anon
             = Returns (Some name)).
  { intros before name after Hbefore Hname.
    induction Hbefore as [|n before Hn Hbefore IH]; simpl.
    - now rewrite Hname.
    - now rewrite Hn. }
  assert (Hnone : Forall (fun n => docker_login n = false) names ->
                  check_docker_logins names fail_on_anon
                  = if fail_on_anon
                    then Raises
                      "Could not login to any of the specified docker registries."
                    else Returns None).
  { intros Hall. induction Hall as [|n l Hn Hall IH]; simpl;
      [reflexivity | now rewrite Hn]. }
  destruct (check_docker_logins_cases names fail_on_anon)
    as [(before & name & after & Hnames & Hname & Hbefore & Hres)|[Hall Hres]].
  - assert (Hsome : ~ Forall (fun n => docker_login n = false) names).
    { intros Hall. rewrite Forall_forall in Hall.
      rewrite (Hall name) in Hname; [discriminate|].
      rewrite Hnames. apply in_or_app. right. now left. }
    split; [|split].
    + intros name'. split.
      * rewrite Hres. intros [= <-]. now exists before, after.
      * intros (before' & after' & -> & Hname' & Hbefore').
        now apply Hfirst.
    + rewrite Hres. split; [discriminate | intros [_ Hall]; contradiction].
    + rewrite Hres. split; [intros [m Hm]; discriminate
                           | intros [_ Hall]; contradiction].
  - split; [|split].
    + intros name. split.
      * rewrite Hres. destruct fail_on_anon; discriminate.
      * intros (before & after & Hnames & Hname & _).
        rewrite Forall_forall in Hall. rewrite (Hall name) in Hname;
          [discriminate|]. rewrite Hnames. apply in_or_app. right. now left.
    + rewrite Hres. destruct fail_on_anon; split; try discriminate;
        try (intros [H _]; discriminate); auto.
    + rewrite Hres. destruct fail_on_anon; split;
        try (intros [m Hm]; discriminate);
        try (intros [H _]; discriminate); eauto.
Qed.
End Logins.

(** ** [get_build_order] (isaac_ros_common_config_utils.py)

    [run_dev.py] orders the requested environments with it before it asks
    for the image name and the build. *)

Definition get_build_order (build_order env : list string) : list string :=
  let env_ordered :=
    fold_left
      (fun env_ordered build_key =>
         if Py.list_in build_key env then env_ordered ++ [build_key]
         else env_ordered)
      build_order [] in
  fold_left
    (fun env_ordered build_key =>
       if negb (Py.list_in build_key env_ordered)
       then env_ordered ++ [build_key]
       else env_ordered)
    env env_ordered.

Lemma list_in_In (x : string) (l : list string) :
  Py.list_in x l = true <-> In x l.
Proof.
  unfold Py.list_in. rewrite existsb_exists. split.
  - intros (y & Hy & Heq). apply String.eqb_eq in Heq. now subst.
  - intros Hin. exists x. split; [assumption | apply String.eqb_refl].
Qed.

Lemma list_in_not_In (x : string) (l : list string) :
  Py.list_in x l = false <-> ~ In x l.
Proof.
  rewrite <- list_in_In. destruct (Py.list_in x l); split; congruence.
Qed.

Lemma list_in_same_elements (x : string) (l1 l2 : list string) :
  (forall y, In y l1 <-> In y l2) -> Py.list_in x l1 = Py.list_in x l2.
Proof.
  intros Hsame.
  destruct (Py.list_in x l1) eqn:H1; destruct (Py.list_in x l2) eqn:H2;
    try reflexivity.
  - apply list_in_In, Hsame, list_in_In in H1. congruence.
  - apply list_in_In, Hsame, list_in_In in H2. congruence.
Qed.

(** The second loop: append the keys not yet present. *)
Definition append_new (env_ordered env : list string) : list string :=
  fold_left
    (fun env_ordered build_key =>
       if negb (Py.list_in build_key env_ordered)
       then env_ordered ++ [build_key]
       else env_ordered)
    env env_ordered.

Lemma listed_first (env build_order acc : list string) :
  fold_left
    (fun env_ordered build_key =>
       if Py.list_in build_key env then env_ordered ++ [build_key]
       else env_ordered)
    build_order acc
  = acc ++ filter (fun k => Py.list_in k env) build_order.
Proof.
  revert acc. induction build_order as [|k o IH]; intros acc; simpl.
  - now rewrite app_nil_r.
  - rewrite IH. destruct (Py.list_in k env); [|reflexivity].
    now rewrite <- app_assoc.
Qed.

Lemma append_new_spec (env acc : list string) :
  exists rest,
    append_new acc env = acc ++ rest /\
    NoDup rest /\
    forall x, In x rest <-> In x env /\ ~ In x acc.
Proof.
  unfold append_new. revert acc.
  induction env as [|k env IH]; intros acc; simpl.
  - exists []. rewrite app_nil_r. split; [reflexivity|].
    split; [constructor|]. intros x. split; [intros [] | intros [[] _]].
  - destruct (Py.list_in k acc) eqn:Hk; simpl.
    + apply list_in_In in Hk.
      destruct (IH acc) as (rest & Heq & Hnd & Hin).
      exists rest. split; [assumption|]. split; [assumption|].
      intros x. rewrite Hin. split.
      * intros [Hx Hacc]. split; [now right | assumption].
      * intros [[<-|Hx] Hacc]; [contradiction | now split].
    + apply list_in_not_In in Hk.
      destruct (IH (acc ++ [k])) as (rest & Heq & Hnd & Hin).
      exists (k :: rest). rewrite Heq, <- app_assoc.
      split; [reflexivity|]. split.
      * constructor; [|assumption]. intros Hkr. apply Hin in Hkr.
        destruct Hkr as [_ Hkr]. apply Hkr, in_or_app. right. now left.
      * intros x. simpl. rewrite Hin. split.
        -- intros [<-|[Hx Hacc]]; [split; [now left | assumption]|].
           split; [now right|]. intros Hxa. apply Hacc, in_or_app. now left.
        -- intros [[<-|Hx] Hacc]; [now left|].
           destruct (string_dec k x) as [->|Hne]; [now left|].
           right. split; [assumption|]. intros Hxa.
           apply in_app_or in Hxa. destruct Hxa as [Hxa|[Hxa|[]]]; auto.
Qed.

Lemma append_new_present (acc l : list string) :
  (forall x, In x l -> In x acc) -> append_new acc l = acc.
Proof.
  unfold append_new. induction l as [|k l IH]; intros Hall; simpl;
    [reflexivity|].
  assert (Hk : Py.list_in k acc = true)
    by (apply list_in_In, Hall; now left).
  rewrite Hk. simpl. apply IH. intros x Hx. apply Hall. now right.
Qed.

Lemma append_new_fresh (l acc : list string) :
  NoDup l -> (forall x, In x l -> ~ In x acc) -> append_new acc l = acc ++ l.
Proof.
  unfold append_new. revert acc.
  induction l as [|k l IH]; intros acc Hnd Hfresh; simpl.
  - now rewrite app_nil_r.
  - assert (Hk : Py.list_in k acc = false)
      by (apply list_in_not_In, Hfresh; now left).
    rewrite Hk. simpl. inversion Hnd as [|? ? Hkl Hnd']; subst.
    rewrite IH; [now rewrite <- app_assoc | assumption|].
    intros x Hx Hxa. apply in_app_or in Hxa.
    destruct Hxa as [Hxa|[<-|[]]]; [|contradiction].
    apply (Hfresh x); [now right | assumption].
Qed.

Lemma get_build_order_split (build_order env : list string) :
  exists rest,
    get_build_order build_order env
    = filter (fun k => Py.list_in k env) build_order ++ rest /\
    NoDup rest /\
    forall x, In x rest <-> In x env /\ ~ In x build_order.
Proof.
  unfold get_build_order. rewrite listed_first. simpl.
  destruct (append_new_spec env (filter (fun k => Py.list_in k env) build_order))
    as (rest & Heq & Hnd & Hin).
  exists rest. split; [exact Heq|]. split; [assumption|].
  intros x. rewrite Hin, filter_In, list_in_In. tauto.
Qed.

(** X5: [get_build_order] returns exactly the requested environments:
    first those named in the build order, in the build order's order,
    then the others, each once; with a duplicate-free build order the
    result has no duplicates, whatever was requested twice. *)
Theorem X5_get_build_order (build_order env : list string) :
  (forall x, In x (get_build_order build_order env) <-> In x env) /\
  (exists rest,
      get_build_order build_order env
      = filter (fun k => Py.list_in k env) build_order ++ rest /\
      NoDup rest /\
      forall x, In x rest <-> In x env /\ ~ In x build_order) /\
  (NoDup build_order -> NoDup (get_build_order build_order env)).
Proof.
  destruct (get_build_order_split build_order env)
    as (rest & Heq & Hnd & Hin).
  split; [|split].
  - intros x. rewrite Heq, in_app_iff, filter_In, list_in_In, Hin.
    destruct (in_dec string_dec x build_order); tauto.
  - now exists rest.
  - intros Ho. rewrite Heq. apply NoDup_app.
    + now apply NoDup_filter.
    + assumption.
    + intros x Hx Hr. apply filter_In in Hx. apply Hin in Hr. tauto.
Qed.

(** X6: ordering an ordered list again changes nothing. *)
Theorem X6_get_build_order_idempotent (build_order env : list string) :
  get_build_order build_order (get_build_order build_order env)
  = get_build_order build_order env.
Proof.
  destruct (get_build_order_split build_order env)
    as (rest & Heq & Hnd & Hin).
  assert (Hsame : forall x,
             In x (get_build_order build_order env) <-> In x env).
  { intros x. rewrite Heq, in_app_iff, filter_In, list_in_In, Hin.
    destruct (in_dec string_dec x build_order); tauto. }
  unfold get_build_order at 1. rewrite listed_first. simpl.
  rewrite (filter_ext _ (fun k => Py.list_in k env))
    by (intros k; now apply list_in_same_elements).
  fold (append_new (filter (fun k => Py.list_in k env) build_order)
          (get_build_order build_order env)).
  rewrite Heq at 1. unfold append_new. rewrite fold_left_app.
  fold (append_new (filter (fun k => Py.list_in k env) build_order)
          (filter (fun k => Py.list_in k env) build_order)).
  rewrite append_new_present by auto.
  fold (append_new (filter (fun k => Py.list_in k env) build_order) rest).
  rewrite append_new_fresh; [now rewrite Heq | assumption|].
  intros x Hx Hf. apply Hin in Hx. apply filter_In in Hf. tauto.
Qed.

(** ** [class Config] *)

(** [os.path.join(a, b)] on POSIX paths. *)
Fixpoint ends_with_slash (s : string) : bool :=
  match s with
  | EmptyString => false
  | String c EmptyString => Ascii.eqb c "/"
  | String _ s' => ends_with_slash s'
  end.

Definition os_path_join (a b : string) : string :=
  if String.prefix "/" b then b
  else if String.eqb a "" || ends_with_slash a then (a ++ b)%string
  else (a ++ "/" ++ b)%string.

Module Config.

Record t : Type := mk {
  target_image_name_ : option string;
  image_key_order_ : option (list string);
  docker_search_dirs_ : list string;
  cache_to_registry_names_ : list string;
  cache_from_registry_names_ : list string;
  remote_builder_ : option string;
  build_args_ : Py.dict string;
  verbose_ : bool;
  platform_ : string;
  base_image_ : option string;
  context_dir_ : option string;
  common_config_file_ : option string
}.

(** [Config.__init__] *)
Definition init (platform_ : string) : t :=
  mk None None [] [] [] None [] false platform_ None None None.

(** The mapping [load] is given (parsed YAML, or the shell variables of
    [load_shell_common_config]); an absent key is [None].
    [remote_builder] maps a platform to a builder address and may be
    null. *)
Record config_dict : Type := mk_config_dict {
  image_key_order : option (list string);
  docker_search_dirs : option (list string);
  cache_to_registry_names : option (list string);
  cache_from_registry_names : option (list string);
  remote_builder : option (option (Py.dict string))
}.

(** [list_prepend_unique], as a function of the configured list (if the
    key is present), the processor and the attribute's current list. *)
Definition list_prepend_unique (configured : option (list string))
  (processor : string -> string) (base_list : list string) : list string :=
  match configured with
  | None => base_list
  | Some prepend_list =>
      let prepend_list := map processor prepend_list in
      let new_base_list :=
        filter (fun x => negb (Py.list_in x prepend_list)) base_list in
      prepend_list ++ new_base_list
  end.

Section Load.
(** [os.path.dirname(os.path.abspath(p))], which depends on the working
    directory, and [__file__]. *)
Variable abspath_dirname : string -> string.
Variable script_file : string.

(** [Config.load]; what it raises is [Raise]. *)
Definition load (self : t) (d : config_dict) : Result t :=
  match
    match image_key_order d with
    | None => Ok (image_key_order_ self)
    | Some x =>
        match map (str_split ".") x with
        | [] => Raise IndexError
        | first :: _ => Ok (Some first)
        end
    end
  with
  | Raise e => Raise e
  | Ok order =>
      let dirs :=
        if truthy (common_config_file_ self)
        then list_prepend_unique (docker_search_dirs d)
               (fun x => os_path_join
                           (abspath_dirname (fmt (common_config_file_ self)))
                           x)
               (docker_search_dirs_ self)
        else list_prepend_unique (docker_search_dirs d)
               (fun _ => abspath_dirname script_file)
               (docker_search_dirs_ self) in
      let cache_to :=
        list_prepend_unique (cache_to_registry_names d) (fun x => x)
          (cache_to_registry_names_ self) in
      let cache_from :=
        list_prepend_unique (cache_from_registry_names d) (fun x => x)
          (cache_from_registry_names_ self) in
      match
        match remote_builder d with
        | None => Ok (remote_builder_ self)
        | Some (Some ((_ :: _) as x)) =>
            match Py.get (platform_ self) x with
            | Some builder => Ok (Some builder)
            | None => Raise (KeyError (platform_ self))
            end
        | Some _ => Ok None
        end
      with
      | Raise e => Raise e
      | Ok builder =>
          Ok (mk (target_image_name_ self) order dirs cache_to cache_from
                builder (build_args_ self) (verbose_ self) (platform_ self)
                (base_image_ self) (context_dir_ self)
                (common_config_file_ self))
      end
  end.
End Load.

End Config.

Example config_load_example :
  Config.load (fun _ => "/ws/scripts") "/opt/build_image_layers.py"
    (Config.mk None None ["/ws/scripts/docker"; "/old"] [] ["nvcr.io/a"] None
       [] false "x86_64" None None (Some "/ws/scripts/.isaac_ros_common-config"))
    (Config.mk_config_dict (Some ["noble.ros2_jazzy"; "ignored.entry"])
       (Some ["docker"; "/abs/extra"]) None (Some ["local.registry"])
       (Some (Some [("x86_64", "tcp://builder:1234")])))
  = Ok (Config.mk None (Some ["noble"; "ros2_jazzy"])
          ["/ws/scripts/docker"; "/abs/extra"; "/old"] []
          ["local.registry"; "nvcr.io/a"] (Some "tcp://builder:1234")
          [] false "x86_64" None None
          (Some "/ws/scripts/.isaac_ros_common-config")).
Proof. reflexivity. Qed.

(** What [list_prepend_unique] leaves in an attribute: the configured
    entries (processed) come first, in their order; behind them the old
    entries that are not among them, in their old order; nothing is lost
    and nothing else is added. *)
Definition prepended (configured : option (list string))
  (processor : string -> string) (old new : list string) : Prop :=
  match configured with
  | None => new = old
  | Some l =>
      firstn (List.length l) new = map processor l /\
      skipn (List.length l) new
      = filter (fun x => negb (Py.list_in x (map processor l))) old /\
      (forall x, In x new <-> In x (map processor l) \/ In x old) /\
      (NoDup (map processor l) -> NoDup old -> NoDup new)
  end.

Lemma list_prepend_unique_prepended configured processor old :
  prepended configured processor old
    (Config.list_prepend_unique configured processor old).
Proof.
  destruct configured as [l|]; simpl; [|reflexivity].
  set (l' := map processor l).
  assert (Hlen : List.length l = List.length l')
    by (unfold l'; now rewrite length_map).
  split; [|split; [|split]].
  - rewrite Hlen, firstn_app, firstn_all, Nat.sub_diag. simpl.
    now rewrite app_nil_r.
  - rewrite Hlen, skipn_app, skipn_all, Nat.sub_diag. reflexivity.
  - intros x. rewrite in_app_iff, filter_In, negb_true_iff, list_in_not_In.
    destruct (in_dec string_dec x l'); tauto.
  - intros Hl Hold. apply NoDup_app; [assumption | now apply NoDup_filter|].
    intros x Hx Hf. apply filter_In in Hf. destruct Hf as [_ Hf].
    apply negb_true_iff, list_in_not_In in Hf. contradiction.
Qed.

Lemma list_prepend_unique_idempotent configured processor old :
  Config.list_prepend_unique configured processor
    (Config.list_prepend_unique configured processor old)
  = Config.list_prepend_unique configured processor old.
Proof.
  destruct configured as [l|]; simpl; [|reflexivity].
  set (l' := map processor l). f_equal.
  rewrite filter_app.
  assert (Hnone : filter (fun x => negb (Py.list_in x l')) l' = []).
  { assert (Hgen : forall l0,
               (forall x, In x l0 -> In x l') ->
               filter (fun x => negb (Py.list_in x l')) l0 = []).
    { induction l0 as [|a l0 IH]; intros Hsub; simpl; [reflexivity|].
      rewrite (proj2 (list_in_In a l')) by (apply Hsub; now left).
      simpl. apply IH. intros x Hx. apply Hsub. now right. }
    apply Hgen. auto. }
  rewrite Hnone. simpl.
  assert (Hidem : forall (f : string -> bool) (l0 : list string),
             filter f (filter f l0) = filter f l0).
  { intros f l0. induction l0 as [|a l0 IH]; simpl; [reflexivity|].
    destruct (f a) eqn:Hfa; simpl; [rewrite Hfa|]; now rewrite ?IH. }
  apply Hidem.
Qed.

Section ConfigFacts.
Variable abspath_dirname : string -> string.
Variable script_file : string.

Abbreviation load := (Config.load abspath_dirname script_file).

(** The processor [load] applies to the configured search directories. *)
Definition search_dir_processor (self : Config.t) : string -> string :=
  if truthy (Config.common_config_file_ self)
  then fun x => os_path_join
                  (abspath_dirname (fmt (Config.common_config_file_ self))) x
  else fun _ => abspath_dirname script_file.

Lemma load_ok_fields (self self' : Config.t) (d : Config.config_dict) :
  load self d = Ok self' ->
  Config.docker_search_dirs_ self'
  = Config.list_prepend_unique (Config.docker_search_dirs d)
      (search_dir_processor self) (Config.docker_search_dirs_ self) /\
  Config.cache_to_registry_names_ self'
  = Config.list_prepend_unique (Config.cache_to_registry_names d)
      (fun x => x) (Config.cache_to_registry_names_ self) /\
  Config.cache_from_registry_names_ self'
  = Config.list_prepend_unique (Config.cache_from_registry_names d)
      (fun x => x) (Config.cache_from_registry_names_ self) /\
  Config.platform_ self' = Config.platform_ self /\
  Config.common_config_file_ self' = Config.common_config_file_ self /\
  Config.target_image_name_ self' = Config.target_image_name_ self /\
  Config.build_args_ self' = Config.build_args_ self /\
  Config.verbose_ self' = Config.verbose_ self /\
  Config.base_image_ self' = Config.base_image_ self /\
  Config.context_dir_ self' = Config.context_dir_ self.
Proof.
  unfold Config.load, search_dir_processor.
  destruct (match Config.image_key_order d with
            | Some x => _
            | None => _
            end) as [order|e]; [|discriminate].
  destruct (match Config.remote_builder d with
            | Some x => _
            | None => _
            end) as [builder|e]; [|discriminate].
  intros [= <-]. simpl.
  destruct (truthy (Config.common_config_file_ self)); auto 12.
Qed.

(** X7: after a successful [Config.load], each of the three list
    attributes (search directories, cache-to and cache-from registries)
    holds the configured entries first, then the entries it had before
    that are not among them, in their old order; a key absent from the
    configuration leaves its attribute as it was. *)
Theorem X7_config_load_prepends (self self' : Config.t)
  (d : Config.config_dict) :
  load self d = Ok self' ->
  prepended (Config.docker_search_dirs d) (search_dir_processor self)
    (Config.docker_search_dirs_ self) (Config.docker_search_dirs_ self') /\
  prepended (Config.cache_to_registry_names d) (fun x => x)
    (Config.cache_to_registry_names_ self)
    (Config.cache_to_registry_names_ self') /\
  prepended (Config.cache_from_registry_names d) (fun x => x)
    (Config.cache_from_registry_names_ self)
    (Config.cache_from_registry_names_ self').
Proof.
  intros Hload. apply load_ok_fields in Hload.
  destruct Hload as (-> & -> & -> & _).
  repeat split; apply list_prepend_unique_prepended.
Qed.

(** X8: loading the same configuration a second time changes nothing. *)
Theorem X8_config_load_idempotent (self self' : Config.t)
  (d : Config.config_dict) :
  load self d = Ok self' -> load self' d = Ok self'.
Proof.
  intros Hload. pose proof (load_ok_fields _ _ _ Hload) as Hfields.
  destruct Hfields as (Hdirs & Hto & Hfrom & Hplat & Hfile & _).
  revert Hload. unfold Config.load.
  rewrite Hplat, Hfile.
  destruct (Config.image_key_order d) as [x|] eqn:Horder.
  - destruct (map (str_split ".") x) as [|first rest]; [discriminate|].
    destruct (match Config.remote_builder d with
              | Some x0 => _
              | None => _
              end) as [builder|e] eqn:Hbuilder; [|discriminate].
    intros [= <-]. cbn [Config.docker_search_dirs_
                          Config.cache_to_registry_names_
                          Config.cache_from_registry_names_
                          Config.remote_builder_ Config.image_key_order_
                          Config.target_image_name_ Config.build_args_
                          Config.verbose_ Config.base_image_
                          Config.context_dir_].
    assert (Hb : match Config.remote_builder d with
                 | Some (Some ((_ :: _) as x0)) =>
                     match Py.get (Config.platform_ self) x0 with
                     | Some b => Ok (Some b)
                     | None => Raise (KeyError (Config.platform_ self))
                     end
                 | Some _ => Ok None
                 | None => Ok builder
                 end = Ok builder).
    { destruct (Config.remote_builder d) as [[[|kv m]|]|];
        try exact Hbuilder; reflexivity. }
    rewrite Hb.
    destruct (truthy (Config.common_config_file_ self));
      now rewrite !list_prepend_unique_idempotent.
  - destruct (match Config.remote_builder d with
              | Some x0 => _
              | None => _
              end) as [builder|e] eqn:Hbuilder; [|discriminate].
    intros [= <-]. cbn [Config.docker_search_dirs_
                          Config.cache_to_registry_names_
                          Config.cache_from_registry_names_
                          Config.remote_builder_ Config.image_key_order_
                          Config.target_image_name_ Config.build_args_
                          Config.verbose_ Config.base_image_
                          Config.context_dir_].
    assert (Hb : match Config.remote_builder d with
                 | Some (Some ((_ :: _) as x0)) =>
                     match Py.get (Config.platform_ self) x0 with
                     | Some b => Ok (Some b)
                     | None => Raise (KeyError (Config.platform_ self))
                     end
                 | Some _ => Ok None
                 | None => Ok builder
                 end = Ok builder).
    { destruct (Config.remote_builder d) as [[[|kv m]|]|];
        try exact Hbuilder; reflexivity. }
    rewrite Hb.
    destruct (truthy (Config.common_config_file_ self));
      now rewrite !list_prepend_unique_idempotent.
Qed.
End ConfigFacts.

Section ConfigEdges.
Variable abspath_dirname : string -> string.
Variable script_file : string.

Abbreviation load' := (Config.load abspath_dirname script_file).


(** X10: when no shell common config file was found, [Config.load] puts
    the directory of the script in place of every configured search
    directory: the attribute then holds that directory once per
    configured entry, followed by the old entries other than it. *)
Theorem X10_config_load_without_common_config (self self' : Config.t)
  (d : Config.config_dict) (configured : list string) :
  truthy (Config.common_config_file_ self) = false ->
  Config.docker_search_dirs d = Some configured ->
  load' self d = Ok self' ->
  Config.docker_search_dirs_ self'
  = repeat (abspath_dirname script_file) (List.length configured)
      ++ match configured with
         | [] => Config.docker_search_dirs_ self
         | _ :: _ =>
             filter (fun x => negb (String.eqb x (abspath_dirname script_file)))
               (Config.docker_search_dirs_ self)
         end.
Proof.
  intros Hfile Hdirs Hload.
  apply (load_ok_fields abspath_dirname script_file) in Hload.
  destruct Hload as (-> & _).
  unfold search_dir_processor. rewrite Hfile, Hdirs. simpl.
  assert (Hrep : forall l : list string,
             map (fun _ : string => abspath_dirname script_file) l
             = repeat (abspath_dirname script_file) (List.length l))
    by (induction l as [|a l IH]; simpl; congruence).
  rewrite Hrep. f_equal.
  destruct configured as [|a l]; simpl.
  - induction (Config.docker_search_dirs_ self) as [|x xs IH]; simpl;
      congruence.
  - apply filter_ext. intros x. unfold Py.list_in. simpl.
    destruct (String.eqb x (abspath_dirname script_file)) eqn:Hx;
      [reflexivity|]. simpl.
    induction (List.length l) as [|n IH]; simpl; [reflexivity|].
    now rewrite Hx.
Qed.
End ConfigEdges.

(** The configuration of [config_load_example], loaded into a
    configuration that knows a shell common config file and into one
    that does not. *)
Definition example_config_dict : Config.config_dict :=
  Config.mk_config_dict (Some ["noble.ros2_jazzy"; "ignored.entry"])
    (Some ["docker"; "/abs/extra"]) None (Some ["local.registry"])
    (Some (Some [("x86_64", "tcp://builder:1234")])).

Definition example_config : Config.t :=
  Config.mk None None ["/ws/scripts/docker"; "/old"] [] ["nvcr.io/a"] None
    [] false "x86_64" None None (Some "/ws/scripts/.isaac_ros_common-config").

Definition example_config_loaded : Config.t :=
  Config.mk None (Some ["noble"; "ros2_jazzy"])
    ["/ws/scripts/docker"; "/abs/extra"; "/old"] []
    ["local.registry"; "nvcr.io/a"] (Some "tcp://builder:1234")
    [] false "x86_64" None None (Some "/ws/scripts/.isaac_ros_common-config").

Lemma X7_config_load_prepends_witness :
  Config.load (fun _ => "/ws/scripts") "/opt/build_image_layers.py"
    example_config example_config_dict = Ok example_config_loaded /\
  prepended (Some ["local.registry"]) (fun x => x) ["nvcr.io/a"]
    ["local.registry"; "nvcr.io/a"].
Proof.
  split; [reflexivity|].
  exact (proj2 (proj2 (X7_config_load_prepends
                         (fun _ => "/ws/scripts") "/opt/build_image_layers.py"
                         example_config example_config_loaded
                         example_config_dict eq_refl))).
Defined.

Lemma X8_config_load_idempotent_witness :
  Config.load (fun _ => "/ws/scripts") "/opt/build_image_layers.py"
    example_config example_config_dict = Ok example_config_loaded /\
  Config.load (fun _ => "/ws/scripts") "/opt/build_image_layers.py"
    example_config_loaded example_config_dict = Ok example_config_loaded.
Proof.
  split; [reflexivity|].
  exact (X8_config_load_idempotent
           (fun _ => "/ws/scripts") "/opt/build_image_layers.py"
           example_config example_config_loaded example_config_dict eq_refl).
Defined.

Lemma X10_config_load_without_common_config_witness :
  truthy (Config.common_config_file_ (Config.init "x86_64")) = false /\
  Config.docker_search_dirs_
    (Config.mk None (Some ["noble"; "ros2_jazzy"]) ["/opt"; "/opt"] []
       ["local.registry"] (Some "tcp://builder:1234") [] false "x86_64"
       None None None)
  = ["/opt"; "/opt"].
Proof.
  split; [reflexivity|].
  exact (X10_config_load_without_common_config
           (fun _ => "/opt") "/opt/build_image_layers.py"
           (Config.init "x86_64")
           (Config.mk None (Some ["noble"; "ros2_jazzy"]) ["/opt"; "/opt"] []
              ["local.registry"] (Some "tcp://builder:1234") [] false "x86_64"
              None None None)
           example_config_dict ["docker"; "/abs/extra"]
           eq_refl eq_refl eq_refl).
Defined.

(* ===================================================================== *)
(** ** [get_image_name]: when it gives up and what the name depends on *)
(* ===================================================================== *)

(** The reference the registry rule gives a stage name. *)
Definition image_ref (registry stage file_arch : string) : string :=
  if Py.str_in "nvcr.io" registry
  then (registry ++ ":" ++ stage ++ "-" ++ file_arch)%string
  else (registry ++ "/" ++ stage ++ "-" ++ file_arch ++ ":latest")%string.

(** The environments joined in the order given, with the container name
    suffix of the process environment when there is one. *)
Definition suffixed_name (name_suffix : option string)
  (env_list : list string) : string :=
  if truthy name_suffix
  then (Py.join "-" env_list ++ "-" ++ fmt name_suffix)%string
  else Py.join "-" env_list.

Section ImageNameFacts.
Variable fs : Path -> option string.
Variable md5 : string -> string.
Variable name_suffix : option string.
Variable docker_search_dirs : list string.
Variable registry : string.
Variable file_arch : string.

Abbreviation image_name := (get_image_name fs md5 name_suffix
                              docker_search_dirs registry).

(** The fingerprint of the chain resolved for the environments, which
    are put in plain string order first. *)
Definition env_fingerprint (env_list : list string) : option string :=
  option_map (md5hash fs md5)
    (resolved_chain fs docker_search_dirs false
       (Py.sorted String.ltb env_list)).

Lemma key_lt_nil : key_lt [] = String.ltb.
Proof. reflexivity. Qed.

Lemma get_image_name_with_hash (env_list : list string) :
  image_name env_list file_arch true
  = option_map
      (fun hash => image_ref registry
                     (suffixed_name name_suffix env_list ++ "_" ++ hash)
                     file_arch)
      (env_fingerprint env_list).
Proof.
  unfold get_image_name, env_fingerprint, resolved_chain, image_ref,
    suffixed_name.
  rewrite from_key_set_sorted, count_nvcr_str_in. cbn [effective_order].
  rewrite key_lt_nil.
  destruct (resolve_dockerfiles fs (mkImageKey (Py.sorted String.ltb env_list))
              docker_search_dirs false) as [p|];
    destruct (Py.str_in "nvcr.io" registry); cbn [option_map];
    rewrite ?string_append_assoc; reflexivity.
Qed.

Lemma get_image_name_without_hash (env_list : list string) :
  image_name env_list file_arch false
  = Some (image_ref registry (suffixed_name name_suffix env_list) file_arch).
Proof.
  unfold get_image_name, image_ref, suffixed_name.
  rewrite from_key_set_sorted, count_nvcr_str_in.
  destruct (Py.str_in "nvcr.io" registry);
    rewrite ?string_append_assoc; reflexivity.
Qed.

(** X11: [get_image_name] gives up (prints its error and exits) exactly
    when the hash is asked for and the environments, put in plain string
    order, do not resolve to a chain.  Without the hash it always returns
    a name, and that name depends neither on the file system nor on the
    search directories. *)
Theorem X11_get_image_name_gives_up (env_list : list string) :
  (forall include_hash,
      image_name env_list file_arch include_hash = None <->
      include_hash = true /\
      resolved_chain fs docker_search_dirs false
        (Py.sorted String.ltb env_list) = None) /\
  (forall fs' md5' docker_search_dirs',
      image_name env_list file_arch false
      = get_image_name fs' md5' name_suffix docker_search_dirs' registry
          env_list file_arch false) /\
  image_name env_list file_arch false <> None.
Proof.
  split; [|split].
  - intros [|].
    + rewrite get_image_name_with_hash. unfold env_fingerprint.
      destruct (resolved_chain fs docker_search_dirs false
                  (Py.sorted String.ltb env_list)); simpl.
      * split; [discriminate | intros [_ H]; discriminate].
      * split; auto.
    + rewrite get_image_name_without_hash.
      split; [discriminate | intros [H _]; discriminate].
  - intros fs' md5' dirs'. unfold get_image_name.
    rewrite from_key_set_sorted. reflexivity.
  - rewrite get_image_name_without_hash. discriminate.
Qed.

(** X12: the hash in the image name does not depend on the order in
    which the environments are listed, the name in front of it does: for
    two listings of the same environments [get_image_name] gives up on
    both or on neither, and the two names carry the same fingerprint
    behind the environments joined in the order each listing gives. *)
Theorem X12_get_image_name_listing_order (env_list env_list' : list string) :
  Permutation env_list env_list' ->
  exists fingerprint,
    image_name env_list file_arch true
    = option_map
        (fun hash => image_ref registry
                       (suffixed_name name_suffix env_list ++ "_" ++ hash)
                       file_arch) fingerprint /\
    image_name env_list' file_arch true
    = option_map
        (fun hash => image_ref registry
                       (suffixed_name name_suffix env_list' ++ "_" ++ hash)
                       file_arch) fingerprint.
Proof.
  intros Hperm. exists (env_fingerprint env_list).
  split; [apply get_image_name_with_hash|].
  rewrite get_image_name_with_hash. unfold env_fingerprint.
  rewrite <- key_lt_nil.
  now rewrite (sorted_keys_unique [] env_list env_list' Hperm).
Qed.
End ImageNameFacts.

Example example_image_names :
  get_image_name example_fs MD5.hexdigest None ["/ws/docker"] "nvcr.io/isaac"
    ["ros2_jazzy"; "noble"] "amd64" true
  = Some "nvcr.io/isaac:ros2_jazzy-noble_85d49876d7a39b42c0567257fc4fab39-amd64" /\
  get_image_name example_fs MD5.hexdigest None ["/ws/docker"] "nvcr.io/isaac"
    ["noble"; "ros2_jazzy"] "amd64" true
  = Some "nvcr.io/isaac:noble-ros2_jazzy_85d49876d7a39b42c0567257fc4fab39-amd64" /\
  get_image_name example_fs MD5.hexdigest (Some "dev") ["/ws/docker"] "registry"
    ["noble"; "unknown_key"] "arm64" false
  = Some "registry/noble-unknown_key-dev-arm64:latest" /\
  get_image_name example_fs MD5.hexdigest (Some "dev") ["/ws/docker"] "registry"
    ["noble"; "unknown_key"] "arm64" true
  = None.
Proof. vm_compute. repeat split; reflexivity. Qed.

Lemma X12_get_image_name_listing_order_witness :
  Permutation ["ros2_jazzy"; "noble"] ["noble"; "ros2_jazzy"] /\
  exists fingerprint,
    get_image_name example_fs MD5.hexdigest None ["/ws/docker"]
      "nvcr.io/isaac" ["ros2_jazzy"; "noble"] "amd64" true
    = option_map
        (fun hash => image_ref "nvcr.io/isaac"
                       (suffixed_name None ["ros2_jazzy"; "noble"]
                          ++ "_" ++ hash) "amd64") fingerprint /\
    get_image_name example_fs MD5.hexdigest None ["/ws/docker"]
      "nvcr.io/isaac" ["noble"; "ros2_jazzy"] "amd64" true
    = option_map
        (fun hash => image_ref "nvcr.io/isaac"
                       (suffixed_name None ["noble"; "ros2_jazzy"]
                          ++ "_" ++ hash) "amd64") fingerprint.
Proof.
  assert (Hperm : Permutation ["ros2_jazzy"; "noble"] ["noble"; "ros2_jazzy"])
    by apply perm_swap.
  split; [exact Hperm|].
  exact (X12_get_image_name_listing_order example_fs MD5.hexdigest None
           ["/ws/docker"] "nvcr.io/isaac" "amd64"
           ["ros2_jazzy"; "noble"] ["noble"; "ros2_jazzy"] Hperm).
Defined.

(* ===================================================================== *)
(** ** [main]: the extra build arguments of the command line *)
(* ===================================================================== *)

(** [key, value = parts]: unpacking into two names raises [ValueError]
    unless there are exactly two parts; raising is [None]. *)
Definition unpack_pair (parts : list string) : option (string * string) :=
  match parts with
  | [key; value] => Some (key, value)
  | _ => None
  end.

(** The loop [for arg in build_args] of [main], on [config.build_args_]. *)
Fixpoint build_args_loop (build_args : list string)
  (build_args_ : Py.dict string) : option (Py.dict string) :=
  match build_args with
  | [] => Some build_args_
  | arg :: rest =>
      if Py.str_in "=" arg then
        match unpack_pair (str_split_once "=" arg) with
        | Some (key, value) =>
            build_args_loop rest (Py.set key value build_args_)
        | None => None
        end
      else build_args_loop rest build_args_
  end.

(** [if build_args: ...]: [None] (no [--build_arg] given) and the empty
    list are both false. *)
Definition process_build_args (build_args : option (list string))
  (build_args_ : Py.dict string) : option (Py.dict string) :=
  match build_args with
  | Some ((_ :: _) as args) => build_args_loop args build_args_
  | _ => Some build_args_
  end.

(** The text in front of the first occurrence of a character, and the
    text behind it. *)
Fixpoint before_char (c : ascii) (s : string) : string :=
  match s with
  | EmptyString => EmptyString
  | String a s' => if Ascii.eqb a c then EmptyString
                   else String a (before_char c s')
  end.

Fixpoint after_char (c : ascii) (s : string) : string :=
  match s with
  | EmptyString => EmptyString
  | String a s' => if Ascii.eqb a c then s' else after_char c s'
  end.

(** The value a list of [KEY=VALUE] arguments gives a key: that of the
    last argument with this key. *)
Definition last_value (key : string) (build_args : list string)
  : option string :=
  option_map (after_char "=")
    (find (fun arg => has_char "=" arg && String.eqb (before_char "=" arg) key)
       (rev build_args)).

Lemma str_in_char (c : ascii) (s : string) :
  Py.str_in (String c "") s = has_char c s.
Proof.
  induction s as [|a s IH]; [reflexivity|].
  cbn [Py.str_in has_char String.prefix]. rewrite IH.
  destruct (ascii_dec c a) as [->|Hne].
  - rewrite Ascii.eqb_refl. now destruct s.
  - destruct (Ascii.eqb_spec a c); [congruence | reflexivity].
Qed.

Lemma split_once_parts (c : ascii) (s : string) :
  has_char c s = true ->
  str_split_once c s = [before_char c s; after_char c s].
Proof.
  induction s as [|a s IH]; simpl; [discriminate|].
  destruct (Ascii.eqb a c); simpl; [reflexivity|].
  intros H. now rewrite IH.
Qed.

Lemma before_after_char (c : ascii) (s : string) :
  has_char c s = true ->
  s = (before_char c s ++ String c (after_char c s))%string /\
  has_char c (before_char c s) = false.
Proof.
  induction s as [|a s IH]; simpl; [discriminate|].
  destruct (Ascii.eqb_spec a c) as [->|Hne]; simpl.
  - auto.
  - intros H. destruct (IH H) as [Hs Hb]. split.
    + now rewrite <- Hs.
    + destruct (Ascii.eqb_spec a c); [contradiction | exact Hb].
Qed.

Lemma find_rev_cons {A : Type} (f : A -> bool) (a : A) (l : list A) :
  find f (rev (a :: l))
  = match find f (rev l) with
    | Some x => Some x
    | None => if f a then Some a else None
    end.
Proof.
  simpl. induction (rev l) as [|x r IH]; simpl; [reflexivity|].
  now destruct (f x).
Qed.

Lemma build_args_loop_spec (build_args : list string)
  (build_args_ : Py.dict string) :
  exists result,
    build_args_loop build_args build_args_ = Some result /\
    forall key,
      Py.get key result
      = match last_value key build_args with
        | Some value => Some value
        | None => Py.get key build_args_
        end.
Proof.
  revert build_args_. induction build_args as [|arg rest IH]; intros d.
  - exists d. split; reflexivity.
  - cbn [build_args_loop]. rewrite str_in_char.
    unfold last_value in *.
    destruct (has_char "=" arg) eqn:Harg.
    + rewrite (split_once_parts _ _ Harg). cbn [unpack_pair].
      destruct (IH (Py.set (before_char "=" arg) (after_char "=" arg) d))
        as (result & Hloop & Hget).
      exists result. split; [exact Hloop|].
      intros key. rewrite Hget, find_rev_cons, Harg. cbn [andb].
      destruct (find _ (rev rest)) as [x|]; [reflexivity|].
      destruct (String.eqb_spec (before_char "=" arg) key) as [<-|Hne].
      * apply get_set_same.
      * apply get_set_other. congruence.
    + destruct (IH d) as (result & Hloop & Hget).
      exists result. split; [exact Hloop|].
      intros key. rewrite Hget, find_rev_cons, Harg. cbn [andb].
      now destruct (find _ (rev rest)).
Qed.

(** X13: reading the [KEY=VALUE] arguments never fails.  An argument
    without ['='] is ignored; one with it is cut at its first ['='], so
    the key has no ['='] and the value is all the rest; afterwards each
    key holds the value of the last argument that names it, and the
    other entries of [build_args_] are as before. *)
Theorem X13_process_build_args (build_args : option (list string))
  (build_args_ : Py.dict string) :
  exists result,
    process_build_args build_args build_args_ = Some result /\
    (forall key,
        Py.get key result
        = match last_value key (match build_args with
                                | Some args => args
                                | None => []
                                end) with
          | Some value => Some value
          | None => Py.get key build_args_
          end) /\
    (forall key, has_char "=" key = true ->
                 Py.get key result = Py.get key build_args_) /\
    (forall arg, has_char "=" arg = true ->
                 arg = (before_char "=" arg ++ "=" ++ after_char "=" arg)%string).
Proof.
  assert (Hloop : exists result,
             process_build_args build_args build_args_ = Some result /\
             forall key,
               Py.get key result
               = match last_value key (match build_args with
                                       | Some args => args
                                       | None => []
                                       end) with
                 | Some value => Some value
                 | None => Py.get key build_args_
                 end).
  { destruct build_args as [[|arg rest]|].
    - exists build_args_. split; reflexivity.
    - apply build_args_loop_spec.
    - exists build_args_. split; reflexivity. }
  destruct Hloop as (result & Hres & Hget).
  exists result. split; [exact Hres|]. split; [exact Hget|]. split.
  - intros key Hkey. rewrite Hget. unfold last_value.
    destruct (find _ _) as [arg|] eqn:Hfind; [|reflexivity].
    apply find_some in Hfind. destruct Hfind as [_ Hf].
    apply andb_true_iff in Hf. destruct Hf as [Harg Heq].
    apply String.eqb_eq in Heq. subst key.
    apply before_after_char in Harg. destruct Harg as [_ Hno]. congruence.
  - intros arg Harg. now apply before_after_char in Harg.
Qed.

Example process_build_args_example :
  process_build_args
    (Some ["USER=admin"; "no_equals_sign"; "OPTS=-a=1 -b=2"; "USER=root"; "=x"])
    [("PLATFORM", "amd64")]
  = Some [("PLATFORM", "amd64"); ("USER", "root"); ("OPTS", "-a=1 -b=2");
          ("", "x")].
Proof. reflexivity. Qed.

(* ===================================================================== *)
(** ** [generate_bake_dict]: what every real target satisfies *)
(* ===================================================================== *)

Lemma get_update_in {V : Type} (k : string) (v : V) (d e : Py.dict V) :
  NoDup (Py.keys e) -> Py.get k e = Some v ->
  Py.get k (Py.update d e) = Some v.
Proof.
  unfold Py.update. revert d.
  induction e as [|[k' v'] e IH]; intros d Hnd Hget; [discriminate|].
  cbn [Py.keys map fst] in Hnd. inversion Hnd as [|? ? Hk' Hnd']; subst.
  cbn [Py.get] in Hget. cbn [fold_left fst snd].
  destruct (String.eqb_spec k' k) as [->|Hne].
  - injection Hget as ->.
    change (Py.get k (Py.update (Py.set k v d) e) = Some v).
    rewrite get_update_none; [apply get_set_same|].
    now apply get_none_keys.
  - now apply IH.
Qed.

Section BakeInvariants.
Variable fs : Path -> option string.
Variable md5 : string -> string.
Variable arch : string.
Variable cache_from_registry : option string.
Variable target_image_name : option string.
Variable base_image : option string.
Variable context_dir : option string.
Variable extra_build_args : option (Py.dict string).
Variable nvcr_tag : bool.
Variable self : ImageBuildPlan.

Abbreviation compiled :=
  (generate_bake_dict fs md5 arch cache_from_registry target_image_name
     base_image context_dir extra_build_args nvcr_tag self).

Lemma bake_stages_Forall (P : string * Target -> Prop)
  (dockerfile_list rest : list Dockerfile) (i : nat) (acc : Py.dict Target) :
  (forall j d,
      P (target_name fs md5 (firstn (j + 1) dockerfile_list),
         stage_dict fs md5 arch cache_from_registry base_image nvcr_tag
           dockerfile_list j d)) ->
  Forall P acc ->
  Forall P (bake_stages fs md5 arch cache_from_registry base_image nvcr_tag
              dockerfile_list acc i rest).
Proof.
  intros Hstage. revert i acc.
  induction rest as [|x rest IH]; intros i acc Hacc; cbn [bake_stages];
    [assumption|].
  apply IH. unfold bake_stage, get_target. now apply Forall_set.
Qed.

(** A property of the stage dicts that the merge of the extra build
    arguments establishes and the context override keeps holds of every
    real target of the compiled plan. *)
Lemma generate_real_targets (P Q : string * Target -> Prop) :
  (forall j d,
      P (target_name fs md5 (firstn (j + 1) (dockerfiles_ self)),
         stage_dict fs md5 arch cache_from_registry base_image nvcr_tag
           (dockerfiles_ self) j d)) ->
  (forall k t, P (k, t) -> Q (k, with_extra extra_build_args t)) ->
  (forall k t c, Q (k, t) -> Q (k, set_context c t)) ->
  forall bp,
    compiled = Ok bp ->
    forall k t, In (k, t) (targets bp) -> k <> "final_target" -> Q (k, t).
Proof.
  intros Hstage Hextra Hcontext bp. unfold generate_bake_dict. cbv zeta.
  pose proof (bake_stages_Forall P (dockerfiles_ self) (dockerfiles_ self)
                0 [] Hstage (Forall_nil _)) as HT.
  set (T := bake_stages fs md5 arch cache_from_registry base_image nvcr_tag
              (dockerfiles_ self) [] 0 (dockerfiles_ self)) in *.
  assert (Hall : Forall Q
                   match extra_build_args with
                   | Some ((_ :: _) as extra) =>
                       map (fun kv => (fst kv, add_extra_args extra (snd kv)))
                         T
                   | _ => T
                   end).
  { unfold with_extra in Hextra.
    destruct extra_build_args as [[|kv extra]|].
    - eapply Forall_impl; [|exact HT]. intros [k t]. apply Hextra.
    - apply Forall_map. eapply Forall_impl; [|exact HT].
      intros [k t]. apply Hextra.
    - eapply Forall_impl; [|exact HT]. intros [k t]. apply Hextra. }
  rewrite Forall_forall in Hall.
  assert (Hall' : forall T',
             T' = match extra_build_args with
                  | Some ((_ :: _) as extra) =>
                      map (fun kv => (fst kv, add_extra_args extra (snd kv)))
                        T
                  | _ => T
                  end ->
             forall x, In x T' -> Q x) by (intros T' ->; exact Hall).
  clear Hall. specialize (Hall' _ eq_refl). rename Hall' into Hall.
  destruct target_image_name as [final_name|].
  - match goal with
    | |- context [Py.get _ ?X] => remember X as T' eqn:HT'; clear HT'
    end.
    destruct (Py.get (get_target fs md5 (dockerfiles_ self)) T')
      as [final_target|] eqn:Hget; [|discriminate].
    apply get_in, Hall in Hget.
    set (final_target' := match context_dir with
                          | Some c => set_context c final_target
                          | None => final_target
                          end).
    assert (Hfinal : Q (get_target fs md5 (dockerfiles_ self), final_target'))
      by (unfold final_target'; destruct context_dir;
          [now apply Hcontext | exact Hget]).
    destruct (t_tags final_target') as [|tag0 more]; [discriminate|].
    intros [= <-] k t Hin Hk. cbn [targets] in Hin.
    apply in_set in Hin. destruct Hin as [[= -> ->]|Hin]; [contradiction|].
    apply in_set in Hin. destruct Hin as [[= -> ->]|Hin]; [exact Hfinal|].
    now apply Hall.
  - intros [= <-] k t Hin _. cbn [targets] in Hin. now apply Hall.
Qed.

(** X14: the caller's build arguments win in every stage.  In a compiled
    plan every real target has build arguments; each key of
    [extra_build_args] holds the caller's value there, whatever the stage
    had set for it ([PLATFORM] and [BASE_IMAGE] included); [PLATFORM] is
    the file architecture unless the caller names it.  The synthetic
    [final_target] has no build arguments at all. *)
Theorem X14_extra_build_args_win (bp : BakePlan) :
  NoDup (Py.keys (extra_or_empty extra_build_args)) ->
  compiled = Ok bp ->
  (forall k t,
      In (k, t) (targets bp) -> k <> "final_target" ->
      exists args,
        t_args t = Some args /\
        (forall key value,
            Py.get key (extra_or_empty extra_build_args) = Some value ->
            Py.get key args = Some value) /\
        (Py.get "PLATFORM" (extra_or_empty extra_build_args) = None ->
         Py.get "PLATFORM" args = Some (file_arch arch))) /\
  (forall t,
      target_image_name <> None ->
      Py.get "final_target" (targets bp) = Some t -> t_args t = None).
Proof.
  intros Hnd Hgen. split.
  - apply (generate_real_targets
             (fun kv => exists args,
                  t_args (snd kv) = Some args /\
                  Py.get "PLATFORM" args = Some (file_arch arch))
             (fun kv => exists args,
                  t_args (snd kv) = Some args /\
                  (forall key value,
                      Py.get key (extra_or_empty extra_build_args)
                      = Some value ->
                      Py.get key args = Some value) /\
                  (Py.get "PLATFORM" (extra_or_empty extra_build_args) = None ->
                   Py.get "PLATFORM" args = Some (file_arch arch))));
      [| | |exact Hgen].
    + intros j d. cbn [snd].
      destruct (stage_dict_args fs md5 arch cache_from_registry base_image
                  nvcr_tag (dockerfiles_ self) j d) as (args & Ha & Hp & _).
      now exists args.
    + intros k t (args & Ha & Hp). cbn [snd] in *.
      unfold with_extra, extra_or_empty in *.
      destruct extra_build_args as [[|kv extra]|].
      * exists args. split; [exact Ha|]. split; [discriminate | auto].
      * exists (Py.update args (kv :: extra)).
        split; [unfold add_extra_args; cbn [t_args]; now rewrite Ha|].
        split.
        -- intros key value Hkey. now apply get_update_in.
        -- intros Hnone. now rewrite get_update_none.
      * exists args. split; [exact Ha|]. split; [discriminate | auto].
    + intros k t c Hq. exact Hq.
  - intros t Hfinal. revert Hgen. unfold generate_bake_dict. cbv zeta.
    destruct target_image_name as [final_name|]; [|contradiction].
    match goal with
    | |- context [Py.get (get_target _ _ _) ?X] => generalize X; intros T'
    end.
    destruct (Py.get (get_target fs md5 (dockerfiles_ self)) T')
      as [final_target|]; [|discriminate].
    match goal with
    | |- context [t_tags ?X] => destruct (t_tags X) as [|tag0 more]
    end; [discriminate|].
    intros [= <-]. cbn [targets]. rewrite get_set_same.
    now intros [= <-].
Qed.
End BakeInvariants.

Example extra_build_args_example :
  match generate_bake_dict example_fs MD5.hexdigest "x86_64" (Some "reg")
          (Some "img") (Some "ubuntu:24.04") None
          (Some [("PLATFORM", "custom"); ("USER", "admin")]) false
          example_plan with
  | Ok bp =>
      map (fun kv => (fst kv, t_args (snd kv))) (targets bp)
      = [("noble_08459f0ee9e7be012080dc36fa7dec4d",
          Some [("PLATFORM", "custom"); ("BASE_IMAGE", "ubuntu:24.04");
                ("USER", "admin")]);
         ("noble-ros2_jazzy_85d49876d7a39b42c0567257fc4fab39",
          Some [("PLATFORM", "custom");
                ("BASE_IMAGE",
                 "reg/noble_08459f0ee9e7be012080dc36fa7dec4d-amd64:latest");
                ("USER", "admin")]);
         ("final_target", None)]
  | Raise _ => False
  end.
Proof. vm_compute. reflexivity. Qed.

Lemma X14_extra_build_args_win_witness :
  NoDup (Py.keys (extra_or_empty
                    (Some [("PLATFORM", "custom"); ("USER", "admin")]))) /\
  exists bp,
    generate_bake_dict example_fs MD5.hexdigest "x86_64" (Some "reg")
      (Some "img") (Some "ubuntu:24.04") None
      (Some [("PLATFORM", "custom"); ("USER", "admin")]) false
      example_plan = Ok bp /\
    forall t, Py.get "final_target" (targets bp) = Some t -> t_args t = None.
Proof.
  assert (Hnd : NoDup (Py.keys (extra_or_empty
                                  (Some [("PLATFORM", "custom");
                                         ("USER", "admin")])))).
  { repeat constructor; simpl; intuition discriminate. }
  split; [exact Hnd|].
  eexists. split; [vm_compute; reflexivity|].
  intros t.
  refine (proj2 (X14_extra_build_args_win example_fs MD5.hexdigest "x86_64"
                   (Some "reg") (Some "img") (Some "ubuntu:24.04") None
                   (Some [("PLATFORM", "custom"); ("USER", "admin")]) false
                   example_plan _ Hnd _) t _).
  - vm_compute. reflexivity.
  - discriminate.
Defined.

(* ===================================================================== *)
(** ** [main]: the targets that are built *)
(* ===================================================================== *)

Section BuildTargets.
(** [check_docker_image_exists], which asks the registry
    ([docker manifest inspect]). *)
Variable check_docker_image_exists : string -> bool.
Variable no_cache : bool.
Variable skip_registry_check : bool.

(** The loop [for target_name in build_plan.target_names()] of [main],
    over the names still to visit; [targets] is
    [docker_bake_dict['targets']]. *)
Fixpoint select_build_targets (targets : Py.dict Target)
  (target_names : list string) (build_target_names : list string)
  : Result (list string) :=
  match target_names with
  | [] => Ok build_target_names
  | target_name :: rest =>
      match Py.get target_name targets with
      | None => Raise (KeyError target_name)
      | Some target =>
          match t_tags target with
          | [] => Raise IndexError
          | tag :: _ =>
              if negb skip_registry_check
                 && (check_docker_image_exists tag && negb no_cache)
              then select_build_targets targets rest build_target_names
              else select_build_targets targets rest
                     (build_target_names ++ [target_name])
          end
      end
  end.



Variable fs : Path -> option string.
Variable md5 : string -> string.
Variable arch : string.
Variable cache_from_registry : option string.
Variable target_image_name : option string.
Variable base_image : option string.
Variable context_dir : option string.
Variable extra_build_args : option (Py.dict string).
Variable nvcr_tag : bool.


End BuildTargets.

Example select_build_targets_example :
  match generate_bake_dict example_fs MD5.hexdigest "x86_64" (Some "reg")
          (Some "img") None None None false example_plan with
  | Ok bp =>
      select_build_targets
        (String.eqb "reg/noble_08459f0ee9e7be012080dc36fa7dec4d-amd64:latest")
        false false (targets bp)
        (target_names example_fs MD5.hexdigest example_chain) []
      = Ok ["noble-ros2_jazzy_85d49876d7a39b42c0567257fc4fab39"] /\
      select_build_targets (fun _ => true) true false (targets bp)
        (target_names example_fs MD5.hexdigest example_chain) []
      = Ok ["noble_08459f0ee9e7be012080dc36fa7dec4d";
            "noble-ros2_jazzy_85d49876d7a39b42c0567257fc4fab39"]
  | Raise _ => False
  end.
Proof. vm_compute. split; reflexivity. Qed.


(* ===================================================================== *)
(** ** [resolve_dockerfiles]: what a returned plan holds *)
(* ===================================================================== *)




(* ===================================================================== *)
(** ** [Dockerfile.md5_hash]: the digest is computed once *)
(* ===================================================================== *)

(** [Dockerfile.md5_hash].  The attribute [md5_hash_] ([None] after
    [__init__]) is passed in and handed back next to the result;
    [calculate_md5] failing to open the file is [None]. *)
Definition Dockerfile_md5_hash (fs : Path -> option string)
  (md5 : string -> string) (self : Dockerfile) (md5_hash_ : option string)
  : option (string * option string) :=
  if negb (truthy md5_hash_) then
    match calculate_md5 fs md5 (dockerfile_path_ self) with
    | Some digest => Some (digest, Some digest)
    | None => None
    end
  else Some (fmt md5_hash_, md5_hash_).

Lemma hexdigest_truthy (digest : string) :
  hexdigest_shape digest = true -> truthy (Some digest) = true.
Proof.
  unfold hexdigest_shape, truthy. intros H.
  apply andb_true_iff in H. destruct H as [Hlen _].
  apply Nat.eqb_eq in Hlen. now destruct digest.
Qed.

(** X17: the first call of [md5_hash] on a fresh [Dockerfile] reads the
    file and returns the digest of its content; it fails only when the
    file cannot be read.  The digest is kept: every later call returns
    it without looking at the file again, whatever has become of the
    file, and leaves the attribute as it is. *)
Theorem X17_md5_hash_computed_once (fs : Path -> option string)
  (md5 : string -> string) (self : Dockerfile) :
  (forall s, hexdigest_shape (md5 s) = true) ->
  (Dockerfile_md5_hash fs md5 self None = None <->
   is_file fs (dockerfile_path_ self) = false) /\
  forall digest md5_hash_,
    Dockerfile_md5_hash fs md5 self None = Some (digest, md5_hash_) ->
    (exists content,
        fs (dockerfile_path_ self) = Some content /\ digest = md5 content) /\
    md5_hash_ = Some digest /\
    forall fs',
      Dockerfile_md5_hash fs' md5 self md5_hash_ = Some (digest, md5_hash_).
Proof.
  intros Hshape. unfold Dockerfile_md5_hash, calculate_md5, is_file.
  cbn [truthy negb].
  destruct (fs (dockerfile_path_ self)) as [content|]; split.
  - split; discriminate.
  - intros digest md5_hash_ [= <- <-].
    split; [now exists content|]. split; [reflexivity|].
    intros fs'. rewrite (hexdigest_truthy _ (Hshape content)). reflexivity.
  - split; reflexivity.
  - discriminate.
Qed.

Lemma X17_md5_hash_computed_once_witness :
  (forall s, hexdigest_shape (MD5.hexdigest s) = true) /\
  Dockerfile_md5_hash example_fs MD5.hexdigest (layer "/ws/docker" ["noble"])
    None
  = Some ("846cb3e36de7babbb6edc1a64bcc725f",
          Some "846cb3e36de7babbb6edc1a64bcc725f") /\
  Dockerfile_md5_hash (fun _ => None) MD5.hexdigest
    (layer "/ws/docker" ["noble"]) (Some "846cb3e36de7babbb6edc1a64bcc725f")
  = Some ("846cb3e36de7babbb6edc1a64bcc725f",
          Some "846cb3e36de7babbb6edc1a64bcc725f").
Proof.
  split; [exact md5_hexdigest_shape|].
  assert (Hfirst : Dockerfile_md5_hash example_fs MD5.hexdigest
                     (layer "/ws/docker" ["noble"]) None
                   = Some ("846cb3e36de7babbb6edc1a64bcc725f",
                           Some "846cb3e36de7babbb6edc1a64bcc725f"))
    by (vm_compute; reflexivity).
  split; [exact Hfirst|].
  destruct (proj2 (X17_md5_hash_computed_once example_fs MD5.hexdigest
                     (layer "/ws/docker" ["noble"]) md5_hexdigest_shape)
              _ _ Hfirst) as (_ & _ & Hlater).
  exact (Hlater (fun _ => None)).
Defined.

(* ===================================================================== *)
(** ** [run_dev.py]: the environments and the architecture it asks for *)
(* ===================================================================== *)

Definition DEFAULT_ENV_LIST : list string :=
  ["noble"; "ros2_jazzy"; "realsense"].

(** What [parse_args] leaves in [args.env]; the arguments are the
    [--env] and [--extra_env] options as [argparse] collects them
    ([None] when the option is not given).  The extra environments are
    filtered against the list as it is before any of them is added. *)
Definition parse_args_env (env extra_env : option (list string))
  : list string :=
  let env :=
    match env with
    | None => DEFAULT_ENV_LIST
    | Some env => env
    end in
  match extra_env with
  | Some ((_ :: _) as extra_env) =>
      env ++ filter (fun e => negb (Py.list_in e env)) extra_env
  | _ => env
  end.

(** [env_list] of [run_dev.main]; [image_key_order_0] is
    [str(config['image_key_order'][0])]. *)
Definition run_dev_env_list (image_key_order_0 : string)
  (env extra_env : option (list string)) : list string :=
  get_build_order (str_split "." image_key_order_0)
    (parse_args_env env extra_env).

(** [file_arch] of [run_dev.main]. *)
Definition run_dev_file_arch (platform : string) : option string :=
  if String.eqb platform "x86_64" then Some "amd64"
  else if String.eqb platform "aarch64" then Some "arm64"
  else None.

Lemma parse_args_env_elements (env extra_env : option (list string))
  (x : string) :
  In x (parse_args_env env extra_env)
  <-> In x (match env with
            | Some env => env
            | None => DEFAULT_ENV_LIST
            end)
      \/ In x (match extra_env with
               | Some extra_env => extra_env
               | None => []
               end).
Proof.
  unfold parse_args_env.
  set (requested := match env with
                    | Some env => env
                    | None => DEFAULT_ENV_LIST
                    end).
  destruct extra_env as [[|e extra]|].
  - simpl. tauto.
  - rewrite in_app_iff, filter_In, negb_true_iff, list_in_not_In.
    destruct (in_dec string_dec x requested); tauto.
  - simpl. tauto.
Qed.

(** X18: the environment list [run_dev.main] works with holds exactly
    the environments asked for with [--env] (the defaults when the
    option is absent) and with [--extra_env]; those of the configured
    key order come first, in that order.  An environment named twice on
    the command line appears once, provided the key order names none
    twice. *)
Theorem X18_run_dev_env_list (image_key_order_0 : string)
  (env extra_env : option (list string)) :
  (forall x,
      In x (run_dev_env_list image_key_order_0 env extra_env)
      <-> In x (match env with
                | Some env => env
                | None => DEFAULT_ENV_LIST
                end)
          \/ In x (match extra_env with
                   | Some extra_env => extra_env
                   | None => []
                   end)) /\
  (exists rest,
      run_dev_env_list image_key_order_0 env extra_env
      = filter (fun k => Py.list_in k (parse_args_env env extra_env))
          (str_split "." image_key_order_0) ++ rest /\
      forall x, In x rest -> ~ In x (str_split "." image_key_order_0)) /\
  (NoDup (str_split "." image_key_order_0) ->
   NoDup (run_dev_env_list image_key_order_0 env extra_env)).
Proof.
  unfold run_dev_env_list.
  destruct (get_build_order_split (str_split "." image_key_order_0)
              (parse_args_env env extra_env)) as (rest & Heq & Hnd & Hin).
  split; [|split].
  - intros x. rewrite <- parse_args_env_elements.
    rewrite Heq, in_app_iff, filter_In, list_in_In, Hin.
    destruct (in_dec string_dec x (str_split "." image_key_order_0)); tauto.
  - exists rest. split; [exact Heq|]. intros x Hx. now apply Hin in Hx.
  - intros Ho. rewrite Heq. apply NoDup_app.
    + now apply NoDup_filter.
    + assumption.
    + intros x Hx Hr. apply filter_In in Hx. apply Hin in Hr. tauto.
Qed.

Example run_dev_env_list_example :
  parse_args_env (Some ["realsense"; "noble"]) (Some ["zed"; "noble"; "zed"])
  = ["realsense"; "noble"; "zed"; "zed"] /\
  run_dev_env_list "noble.ros2_jazzy" (Some ["realsense"; "noble"])
    (Some ["zed"; "noble"; "zed"])
  = ["noble"; "realsense"; "zed"] /\
  run_dev_env_list "noble.ros2_jazzy" None None
  = ["noble"; "ros2_jazzy"; "realsense"].
Proof. repeat split; reflexivity. Qed.




Example architecture_suffix_example :
  image_ref "nvcr.io/isaac" "noble_08459f0ee9e7be012080dc36fa7dec4d"
    (fmt (run_dev_file_arch "aarch64"))
  = registry_tag "aarch64" (Some "nvcr.io/isaac")
      "noble_08459f0ee9e7be012080dc36fa7dec4d" /\
  image_ref "registry" "noble_08459f0ee9e7be012080dc36fa7dec4d"
    (fmt (run_dev_file_arch "riscv64"))
  = "registry/noble_08459f0ee9e7be012080dc36fa7dec4d-None:latest" /\
  registry_tag "riscv64" (Some "registry")
    "noble_08459f0ee9e7be012080dc36fa7dec4d"
  = "registry/noble_08459f0ee9e7be012080dc36fa7dec4d-amd64:latest".
Proof. repeat split; reflexivity. Qed.


(** ** The name [run_dev.py] asks for and the tag of the last stage *)






Example composite_layer_name_differs :
  get_image_name example_fs MD5.hexdigest None ["/ws/docker"] "registry"
    ["a"; "b"] "amd64" true
  = Some "registry/a-b_143710b5b246909654f1dd24d65637b7-amd64:latest" /\
  option_map
    (fun plan => registry_tag "x86_64" (Some "registry")
                   (target_name example_fs MD5.hexdigest (dockerfiles_ plan)))
    (resolve_dockerfiles example_fs (mkImageKey ["a"; "b"]) ["/ws/docker"]
       false)
  = Some "registry/a.b_143710b5b246909654f1dd24d65637b7-amd64:latest".
Proof. vm_compute. split; reflexivity. Qed.
